(** * MyTaskManager: lists, tasks and the client CRUD pages

    A shallow embedding of the Laravel controllers
    ([ListController], [DashboardController]) and of the two Inertia/React
    pages (Tasks index, Lists index), with the properties of the
    specification stated over them.

    Server side: a table is the list of its rows in primary-key order, a
    controller method is a function from the table (and the request, the
    authenticated user and the clock) to the new table and the response.

    Client side: a page is a record of its [useState] cells and its
    [useForm] helper; an event handler is a function on that record and a
    request it hands to the Inertia router is returned next to it. *)

From Stdlib Require Import ZArith List Bool Ascii String Lia Arith.
From Stdlib Require Import Sorting.Sorted Sorting.Permutation.
From Stdlib Require Import DecimalString.
Import ListNotations.

Local Open Scope string_scope.
Local Open Scope Z_scope.

(* ===================================================================== *)
(** ** PHP values as they reach the controllers *)
(* ===================================================================== *)

Module Php.

(** A scalar of a request body or of a database column. *)
Inductive value : Type :=
| VNull
| VBool (b : bool)
| VInt (z : Z)
| VStr (s : string).

(** PHP's conversion to bool: [null], [false], [0], [""] and ["0"] are
    falsy, every other scalar is truthy. *)
Definition truthy (v : value) : bool :=
  match v with
  | VNull => false
  | VBool b => b
  | VInt z => negb (z =? 0)
  | VStr s => negb (String.eqb s "" || String.eqb s "0")
  end.

(** [$v == $b] with a boolean right operand: PHP converts the left
    operand to bool and compares. *)
Definition loose_eq_bool (v : value) (b : bool) : bool :=
  Bool.eqb (truthy v) b.

(** The characters [trim] strips: space, tab, newline, carriage return,
    NUL and vertical tab. *)
Definition is_trimmed_char (c : ascii) : bool :=
  let n := nat_of_ascii c in
  (n =? 32)%nat || (n =? 9)%nat || (n =? 10)%nat ||
  (n =? 13)%nat || (n =? 0)%nat || (n =? 11)%nat.

(** [trim($s) === ''] *)
Fixpoint blank (s : string) : bool :=
  match s with
  | EmptyString => true
  | String c r => is_trimmed_char c && blank r
  end.

(** [(string) $v] for a scalar. *)
Definition to_string (v : value) : string :=
  match v with
  | VNull => ""
  | VBool true => "1"
  | VBool false => ""
  | VInt z => NilZero.string_of_int (Z.to_int z)
  | VStr s => s
  end.

End Php.

(* ===================================================================== *)
(** ** The validator, for the rules the controllers use *)
(* ===================================================================== *)

Module Validation.
Import Php.

Inductive rule : Type :=
| Required
| Nullable
| IsString
| Max (n : nat).

(** [required] is the only implicit rule among them: it runs on absent
    and empty values too. *)
Definition isImplicit (r : rule) : bool :=
  match r with Required => true | _ => false end.

Definition hasNullable (rs : list rule) : bool :=
  existsb (fun r => match r with Nullable => true | _ => false end) rs.

(** An attribute of the request: [None] when the key is absent. *)
Definition attribute := option value.

(** [validateRequired]: null, a blank string (after [trim]) fail. *)
Definition validateRequired (a : attribute) : bool :=
  match a with
  | None | Some VNull => false
  | Some (VStr s) => negb (blank s)
  | Some _ => true
  end.

Definition validateString (a : attribute) : bool :=
  match a with Some (VStr _) => true | _ => false end.

(** [getSize] without a numeric rule: the length in characters of the
    value as a string. *)
Definition getSize (a : attribute) : nat :=
  match a with
  | None => 0%nat
  | Some v => String.length (to_string v)
  end.

Definition passes (r : rule) (a : attribute) : bool :=
  match r with
  | Required => validateRequired a
  | Nullable => true
  | IsString => validateString a
  | Max n => (getSize a <=? n)%nat
  end.

(** [isValidatable]: a rule that is not implicit is skipped on an absent
    key, on a blank string, and on [null] when the attribute is marked
    [nullable]. *)
Definition isValidatable (rs : list rule) (r : rule) (a : attribute) : bool :=
  if isImplicit r then true
  else match a with
       | None => false
       | Some (VStr s) => negb (blank s)
       | Some VNull => negb (hasNullable rs)
       | Some _ => true
       end.

(** The loop over the rules of one attribute: failures are collected in
    order, and the loop stops once an implicit rule has failed. *)
Fixpoint run_rules (all todo : list rule) (a : attribute) : list rule :=
  match todo with
  | [] => []
  | r :: rest =>
      if isValidatable all r a && negb (passes r a)
      then if isImplicit r then [r] else r :: run_rules all rest a
      else run_rules all rest a
  end.

Definition failures (rs : list rule) (a : attribute) : list rule :=
  run_rules rs rs a.

(** The message bag: the attributes with at least one failed rule. *)
Definition errors := list (string * list rule).

Definition field_errors (name : string) (rs : list rule) (a : attribute)
  : errors :=
  match failures rs a with
  | [] => []
  | fs => [(name, fs)]
  end.

End Validation.

(* ===================================================================== *)
(** ** Eloquent models *)
(* ===================================================================== *)

Module Models.
Import Php.

(** A row of table [lists] (model [TaskList]). *)
Record TaskList : Type := mkTaskList {
  id : Z;
  title : string;
  description : option string;
  user_id : Z;
  created_at : Z;
  updated_at : Z
}.

(** A row of table [tasks] (model [Task]).  The model declares no cast
    for [is_completed], so the column reaches PHP as a scalar. *)
Record Task : Type := mkTask {
  task_id : Z;
  task_title : string;
  task_description : option string;
  is_completed : value;
  due_date : option string;
  lists_id : Z;
  task_created_at : Z;
  task_updated_at : Z
}.

Definition set_title (t : string) (l : TaskList) : TaskList :=
  mkTaskList (id l) t (description l) (user_id l) (created_at l) (updated_at l).
Definition set_description (d : option string) (l : TaskList) : TaskList :=
  mkTaskList (id l) (title l) d (user_id l) (created_at l) (updated_at l).
Definition set_user_id (u : Z) (l : TaskList) : TaskList :=
  mkTaskList (id l) (title l) (description l) u (created_at l) (updated_at l).
Definition set_updated_at (t : Z) (l : TaskList) : TaskList :=
  mkTaskList (id l) (title l) (description l) (user_id l) (created_at l) t.

Definition option_string_eqb (a b : option string) : bool :=
  match a, b with
  | None, None => true
  | Some x, Some y => String.eqb x y
  | _, _ => false
  end.

(** Attribute-wise equality of two rows: what [isDirty] decides. *)
Definition TaskList_eqb (a b : TaskList) : bool :=
  (id a =? id b) && String.eqb (title a) (title b) &&
  option_string_eqb (description a) (description b) &&
  (user_id a =? user_id b) && (created_at a =? created_at b) &&
  (updated_at a =? updated_at b).

End Models.

(* ===================================================================== *)
(** ** HTTP responses and the flash channel *)
(* ===================================================================== *)

Module Http.

(** The [flash] prop of a rendered page: [session('success')] and
    [session('error')], [None] when the session holds no such key. *)
Record Flash : Type := mkFlash {
  success : option string;
  error : option string
}.

Definition no_flash : Flash := mkFlash None None.

Inductive Response : Type :=
| Redirect (route : string) (flash : Flash)
    (** [redirect()->route(r)->with(...)] *)
| Invalid (errs : Validation.errors)
    (** the [ValidationException] thrown by [$request->validate] *)
| NotFound.
    (** the 404 of route-model binding when no row has the id *)

End Http.

(* ===================================================================== *)
(** ** ListController *)
(* ===================================================================== *)

Module ListController.
Import Php Validation Models Http.

(** The two inputs the controller reads from the request. *)
Record Request : Type := mkRequest {
  in_title : attribute;
  in_description : attribute
}.

Definition title_rules : list rule := [Required; IsString; Max 255].
Definition description_rules : list rule := [Nullable; IsString].

(** The array [$request->validate] returns: the validated title, and
    the description when its key was present ([Some None] is a present
    [null]). *)
Record Validated : Type := mkValidated {
  v_title : string;
  v_description : option (option string)
}.

(** Only a string or [null] passes the rules, so the last case stands
    for [null]. *)
Definition validated_description (a : attribute) : option (option string) :=
  match a with
  | None => None
  | Some (VStr s) => Some (Some s)
  | Some _ => Some None
  end.

(** [$request->validate(['title' => 'required|string|max:255',
                         'description' => 'nullable|string'])] *)
Definition validate (r : Request) : errors + Validated :=
  match (field_errors "title" title_rules (in_title r) ++
         field_errors "description" description_rules (in_description r))%list
  with
  | [] => inr (mkValidated (to_string (match in_title r with
                                        | Some v => v
                                        | None => VNull
                                        end))
                           (validated_description (in_description r)))
  | es => inl es
  end.

(** The table [lists]: its rows in primary-key order. *)
Definition Table := list TaskList.

(** The auto-increment key of the next inserted row. *)
Definition next_id (tbl : Table) : Z :=
  1 + fold_right (fun l m => Z.max (id l) m) 0 tbl.

(** [index]: [TaskList::where('user_id', Auth::id())->get()].  The query
    has no [orderBy]; the rows come back in table order. *)
Definition index (auth : Z) (tbl : Table) : list TaskList :=
  filter (fun l => user_id l =? auth) tbl.

(** [store]: validate, add [user_id], insert, redirect with the flash.
    A description that was not sent is left to the column's default,
    [NULL]. *)
Definition store (auth now : Z) (r : Request) (tbl : Table)
  : Table * Response :=
  match validate r with
  | inl es => (tbl, Invalid es)
  | inr v =>
      let row := mkTaskList (next_id tbl) (v_title v)
                   (match v_description v with
                    | Some d => d
                    | None => None
                    end)
                   auth now now in
      ((tbl ++ [row])%list,
       Redirect "lists.index"
         (mkFlash (Some "List Created Successfully") None))
  end.

(** Implicit route-model binding of [TaskList $list]: the row with the
    key of the URL, whoever owns it. *)
Definition resolve (key : Z) (tbl : Table) : option TaskList :=
  find (fun l => id l =? key) tbl.

(** [$list->update($validated)]: fill the attributes; when the model is
    dirty, touch [updated_at] and write the row. *)
Definition fill (auth : Z) (v : Validated) (l : TaskList) : TaskList :=
  let l1 := set_title (v_title v) l in
  let l2 := match v_description v with
            | Some d => set_description d l1
            | None => l1
            end in
  set_user_id auth l2.

Definition save (now : Z) (old new : TaskList) : TaskList :=
  if TaskList_eqb old new then old else set_updated_at now new.

Definition replace_row (new : TaskList) (tbl : Table) : Table :=
  map (fun l => if id l =? id new then new else l) tbl.

(** [update(Request $request, TaskList $list)] *)
Definition update (auth now key : Z) (r : Request) (tbl : Table)
  : Table * Response :=
  match resolve key tbl with
  | None => (tbl, NotFound)
  | Some l =>
      match validate r with
      | inl es => (tbl, Invalid es)
      | inr v =>
          (replace_row (save now l (fill auth v l)) tbl,
           Redirect "lists.index"
             (mkFlash (Some "List updated successfully") None))
      end
  end.

(** [destroy(TaskList $list)] *)
Definition destroy (auth key : Z) (tbl : Table) : Table * Response :=
  match resolve key tbl with
  | None => (tbl, NotFound)
  | Some l =>
      (filter (fun x => negb (id x =? id l)) tbl,
       Redirect "lists.index"
         (mkFlash (Some "List Deleted Successfully") None))
  end.

End ListController.

(* ===================================================================== *)
(** ** DashboardController *)
(* ===================================================================== *)

Module DashboardController.
Import Php Models Http.

(** [orderBy('updated_at','desc')->orderBy('created_at','desc')]: the
    row [a] may stand before the row [b]. *)
Definition before (ua ca ub cb : Z) : bool :=
  (ub <? ua) || ((ub =? ua) && (cb <=? ca)).

Section OrderBy.
Context {A : Type} (updated created : A -> Z).

Definition row_before (a b : A) : bool :=
  before (updated a) (created a) (updated b) (created b).

Fixpoint insert_row (x : A) (l : list A) : list A :=
  match l with
  | [] => [x]
  | y :: r => if row_before x y then x :: y :: r else y :: insert_row x r
  end.

(** The ordered result set, as a stable insertion sort. *)
Definition orderBy (l : list A) : list A :=
  fold_right insert_row [] l.

Definition ordered_before (a b : A) : Prop := row_before a b = true.
End OrderBy.

(** [$tasks->where('is_completed', $b)]: the collection's loose
    comparison. *)
Definition where_is_completed (b : bool) (ts : list Task) : list Task :=
  filter (fun t => loose_eq_bool (is_completed t) b) ts.

Record Stats : Type := mkStats {
  totalLists : nat;
  totalTasks : nat;
  completedTasks : nat;
  pendingTasks : nat
}.

Record Page : Type := mkPage {
  stats : Stats;
  lists : list TaskList;
  tasks : list Task;
  flash : Flash
}.

(** [whereHas('list', user_id = $user->id)] *)
Definition owned_task (auth : Z) (ls : list TaskList) (t : Task) : bool :=
  existsb (fun l => (id l =? lists_id t) && (user_id l =? auth)) ls.

(** [index()].  The column lists of the two [get] calls only drop
    columns the page does not read; the rows are kept whole here. *)
Definition index (auth : Z) (session : Flash)
           (ls : list TaskList) (ts : list Task) : Page :=
  let lists := orderBy updated_at created_at
                 (filter (fun l => user_id l =? auth) ls) in
  let tasks := orderBy task_updated_at task_created_at
                 (filter (owned_task auth ls) ts) in
  mkPage (mkStats (List.length lists) (List.length tasks)
            (List.length (where_is_completed true tasks))
            (List.length (where_is_completed false tasks)))
         lists tasks session.

End DashboardController.

(* ===================================================================== *)
(** ** Client runtime: the Inertia form helper and React's effects *)
(* ===================================================================== *)

Module Inertia.

(** The object [useForm(initial)] returns, as far as the pages read it. *)
Record Form (D : Type) : Type := mkForm {
  data : D;
  defaults : D;
  processing : bool
}.
Arguments mkForm {D}.
Arguments data {D}.
Arguments defaults {D}.
Arguments processing {D}.

Definition useForm {D} (initial : D) : Form D := mkForm initial initial false.
Definition setData {D} (d : D) (f : Form D) : Form D :=
  mkForm d (defaults f) (processing f).
Definition reset {D} (f : Form D) : Form D :=
  mkForm (defaults f) (defaults f) (processing f).
(** [onStart] of a visit made through the helper, and [onFinish]. *)
Definition start {D} (f : Form D) : Form D :=
  mkForm (data f) (defaults f) true.
Definition finish {D} (f : Form D) : Form D :=
  mkForm (data f) (defaults f) false.

(** A mutation the helper sends. *)
Inductive Mutation (D : Type) : Type :=
| Post (url : string) (body : D)
| Put (url : string) (key : Z) (body : D)
| Delete (url : string) (key : Z).
Arguments Post {D}.
Arguments Put {D}.
Arguments Delete {D}.

Definition from_dialog {D} (m : Mutation D) : bool :=
  match m with Delete _ _ => false | _ => true end.

(** The mutations in flight without the [k]-th, which has finished. *)
Definition drop {A} (k : nat) (l : list A) : list A :=
  (firstn k l ++ skipn (Datatypes.S k) l)%list.

End Inertia.

Module Ui.

Inductive ToastType : Type := ToastSuccess | ToastError.

(** JavaScript truthiness of an optional string ([undefined], [null] and
    [''] are falsy). *)
Definition truthy (o : option string) : bool :=
  match o with
  | Some s => negb (String.eqb s "")
  | None => false
  end.

Definition text (o : option string) : string :=
  match o with Some s => s | None => "" end.

(** [flash?.success] and [flash?.error] on the optional prop. *)
Definition flash_success (f : option Http.Flash) : option string :=
  match f with Some x => Http.success x | None => None end.
Definition flash_error (f : option Http.Flash) : option string :=
  match f with Some x => Http.error x | None => None end.

End Ui.

Module React.

(** A mounted function component with one timer effect.  [cells] are
    its [useState] cells; [timer] is the pending [setTimeout] of the
    effect's last run (deadline in ms, callback), which the effect's
    cleanup clears; [clock] is the time in ms. *)
Section Component.
Context {S : Type}.

(** An effect [useEffect(() => { ...; return cleanup }, [dep s])]
    whose body either schedules one timeout or does nothing. *)
Record Effect : Type := mkEffect {
  dep : S -> bool;
  body : S -> option (nat * (S -> S))
}.

Record Component : Type := mkComponent {
  mounted : bool;
  cells : S;
  timer : option (nat * (S -> S));
  clock : nat
}.

Variable eff : Effect.

Definition schedule (now : nat) (s : S) : option (nat * (S -> S)) :=
  match body eff s with
  | Some (delay, callback) => Some ((now + delay)%nat, callback)
  | None => None
  end.

(** First render: every effect runs once. *)
Definition mount (now : nat) (s : S) : Component :=
  mkComponent true s (schedule now s) now.

(** A state update followed by the re-render: when the dependency
    changed, the previous run is cleaned up (its timeout cleared) and
    the effect runs again; otherwise the pending timeout stays. *)
Definition render (s' : S) (c : Component) : Component :=
  if Bool.eqb (dep eff (cells c)) (dep eff s')
  then mkComponent (mounted c) s' (timer c) (clock c)
  else mkComponent (mounted c) s' (schedule (clock c) s') (clock c).

(** A state setter called from an event handler or a callback; it
    does nothing once the component is unmounted. *)
Definition update (f : S -> S) (c : Component) : Component :=
  if mounted c then render (f (cells c)) c else c.

(** Unmount: the cleanup of the last run clears the timeout. *)
Definition unmount (c : Component) : Component :=
  mkComponent false (cells c) None (clock c).

(** One millisecond passes.  A pending timeout whose deadline is
    reached fires: it is no longer pending and its callback runs. *)
Definition tick (c : Component) : Component :=
  let now := Datatypes.S (clock c) in
  match timer c with
  | Some (deadline, callback) =>
      if (deadline <=? now)%nat
      then update callback (mkComponent (mounted c) (cells c) None now)
      else mkComponent (mounted c) (cells c) (timer c) now
  | None => mkComponent (mounted c) (cells c) None now
  end.

(** [d] ms pass with no other event. *)
Definition elapse (d : nat) (c : Component) : Component :=
  Nat.iter d tick c.

(** The timer is consistent with the cells: a timeout is pending only
    on a mounted component whose dependency is on, it runs [hide], and
    its deadline lies within the next [delay] ms; with no timeout pending
    a mounted component has its dependency off. *)
Definition well_timed (delay : nat) (hide : S -> S) (c : Component) : Prop :=
  match timer c with
  | Some (t, callback) =>
      mounted c = true /\ dep eff (cells c) = true /\ callback = hide /\
      (clock c < t <= clock c + delay)%nat
  | None => mounted c = true -> dep eff (cells c) = false
  end.

End Component.
Arguments Effect : clear implicits.
Arguments Component : clear implicits.

(** The auto-dismiss behaviour of a component in state [c], for the
    events [step] of its page and the visibility [visible] of its toast:
    - a timeout is pending only while the component is mounted and the
      toast visible, and it is due within [delay] ms;
    - an event that makes the toast visible leaves a timeout due exactly
      [delay] ms later, and if nothing else happens the toast is visible
      for every [d < delay] ms after it and hidden from [delay] ms on;
    - unmounting leaves no timeout pending, and no amount of time changes
      the cells afterwards. *)
Definition auto_dismiss {S E : Type} (eff : Effect S) (visible : S -> bool)
           (step : E -> Component S -> Component S) (delay : nat)
           (c : Component S) : Prop :=
  (forall t callback, timer c = Some (t, callback) ->
     mounted c = true /\ visible (cells c) = true /\
     (clock c < t <= clock c + delay)%nat) /\
  (forall e, visible (cells c) = false -> visible (cells (step e c)) = true ->
     (exists callback,
        timer (step e c) = Some ((clock (step e c) + delay)%nat, callback)) /\
     (forall d, visible (cells (elapse eff d (step e c))) = (d <? delay)%nat)) /\
  (timer (unmount c) = None /\
   forall d, cells (elapse eff d (unmount c)) = cells c).

End React.

(* ===================================================================== *)
(** ** The Tasks index page *)
(* ===================================================================== *)

Module TasksPage.
Import Inertia Ui.

Record Task : Type := mkTask {
  id : Z;
  title : string;
  description : option string;
  is_completed : bool;
  due_date : option string;
  lists_id : Z;
  task_list : Z * string
}.

Inductive Filter : Type := all | completed | pending.

Record Paginated : Type := mkPaginated {
  data : list Task;
  current_page : Z;
  last_page : Z;
  per_page : Z;
  total : Z;
  from : Z;
  to : Z
}.

Record Filters : Type := mkFilters {
  search : string;
  filter : Filter
}.

Record Props : Type := mkProps {
  tasks : Paginated;
  lists : list (Z * string);
  filters : Filters;
  flash : option Http.Flash
}.

(** The fields of [useForm]. *)
Record FormData : Type := mkFormData {
  f_title : string;
  f_description : string;
  f_due_date : string;
  f_lists_id : string;
  f_is_completed : bool
}.

Definition empty_form : FormData := mkFormData "" "" "" "" false.

(** The [useState] cells and the form helper. *)
Record State : Type := mkState {
  isOpen : bool;
  editingTask : option Task;
  showToast : bool;
  toastMessage : string;
  toastType : ToastType;
  searchTerm : string;
  completionFilter : Filter;
  form : Form FormData
}.

Definition setIsOpen (b : bool) (s : State) : State :=
  mkState b (editingTask s) (showToast s) (toastMessage s) (toastType s)
    (searchTerm s) (completionFilter s) (form s).
Definition setEditingTask (t : option Task) (s : State) : State :=
  mkState (isOpen s) t (showToast s) (toastMessage s) (toastType s)
    (searchTerm s) (completionFilter s) (form s).
Definition setShowToast (b : bool) (s : State) : State :=
  mkState (isOpen s) (editingTask s) b (toastMessage s) (toastType s)
    (searchTerm s) (completionFilter s) (form s).
Definition setToastMessage (m : string) (s : State) : State :=
  mkState (isOpen s) (editingTask s) (showToast s) m (toastType s)
    (searchTerm s) (completionFilter s) (form s).
Definition setToastType (t : ToastType) (s : State) : State :=
  mkState (isOpen s) (editingTask s) (showToast s) (toastMessage s) t
    (searchTerm s) (completionFilter s) (form s).
Definition setSearchTerm (q : string) (s : State) : State :=
  mkState (isOpen s) (editingTask s) (showToast s) (toastMessage s)
    (toastType s) q (completionFilter s) (form s).
Definition setCompletionFilter (f : Filter) (s : State) : State :=
  mkState (isOpen s) (editingTask s) (showToast s) (toastMessage s)
    (toastType s) (searchTerm s) f (form s).
Definition withForm (g : Form FormData -> Form FormData) (s : State) : State :=
  mkState (isOpen s) (editingTask s) (showToast s) (toastMessage s)
    (toastType s) (searchTerm s) (completionFilter s) (g (form s)).

(** The cells at the first render. *)
Definition init (p : Props) : State :=
  mkState false None false "" ToastSuccess
    (search (filters p)) (filter (filters p)) (useForm empty_form).

(** The effect on [flash]. *)
Definition flashEffect (fl : option Http.Flash) (s : State) : State :=
  if truthy (flash_success fl) then
    setShowToast true
      (setToastType ToastSuccess (setToastMessage (text (flash_success fl)) s))
  else if truthy (flash_error fl) then
    setShowToast true
      (setToastType ToastError (setToastMessage (text (flash_error fl)) s))
  else s.

(** The effect on [showToast]: a 3000 ms timeout that hides the toast,
    cleared by the cleanup. *)
Definition autoHide : React.Effect State :=
  React.mkEffect showToast
    (fun s => if showToast s then Some (3000%nat, setShowToast false) else None).

(** [handleSubmit]: the mutation sent, with the helper now processing. *)
Definition handleSubmit (s : State) : State * Mutation FormData :=
  match editingTask s with
  | Some t => (withForm start s, Put "/tasks" (id t) (Inertia.data (form s)))
  | None => (withForm start s, Post "/tasks" (Inertia.data (form s)))
  end.

(** The [onSuccess] callback [handleSubmit] attached to the mutation. *)
Definition onSuccess (m : Mutation FormData) (s : State) : State :=
  match m with
  | Put _ _ _ => setEditingTask None (withForm reset (setIsOpen false s))
  | Post _ _ => withForm reset (setIsOpen false s)
  | Delete _ _ => s
  end.

Definition onFinish (s : State) : State := withForm finish s.

Definition handleEdit (t : Task) (s : State) : State :=
  setIsOpen true
    (withForm (setData
                 (mkFormData (title t)
                    (match description t with Some d => d | None => "" end)
                    (match due_date t with Some d => d | None => "" end)
                    (NilZero.string_of_int (Z.to_int (lists_id t)))
                    (is_completed t)))
       (setEditingTask (Some t) s)).

Definition handleDelete (taskId : Z) (s : State) : State * Mutation FormData :=
  (withForm start s, Delete "/tasks" taskId).

(** [<Dialog open={isOpen} onOpenChange={setIsOpen}>] *)
Definition onOpenChange (open : bool) (s : State) : State := setIsOpen open s.

(** What the dialog shows. *)
Record DialogView : Type := mkDialogView {
  dialog_open : bool;
  dialog_title : string;
  dialog_fields : FormData;
  submit_disabled : bool;
  submit_label : string
}.

Definition renderDialog (s : State) : DialogView :=
  mkDialogView (isOpen s)
    (match editingTask s with Some _ => "Edit Task" | None => "Create New Task" end)
    (Inertia.data (form s))
    (processing (form s))
    (match editingTask s with Some _ => "Update" | None => "Create" end).

(** [{showToast && <div ...>{toastMessage}</div>}]: the toast on screen,
    if any. *)
Definition renderToast (s : State) : option (ToastType * string) :=
  if showToast s then Some (toastType s, toastMessage s) else None.

(** A [router.get('/tasks', params, options)] visit. *)
Record Visit : Type := mkVisit {
  url : string;
  q_page : option Z;
  q_search : string;
  q_filter : Filter;
  preserveState : bool;
  preserveScroll : bool
}.

Definition handleSearch (s : State) : Visit :=
  mkVisit "/tasks" None (searchTerm s) (completionFilter s) true true.

Definition handleFilterChange (value : Filter) (s : State) : State * Visit :=
  (setCompletionFilter value s,
   mkVisit "/tasks" None (searchTerm s) value true true).

Definition handlePageChange (page : Z) (s : State) : Visit :=
  mkVisit "/tasks" (Some page) (searchTerm s) (completionFilter s) true true.

(** The page as the browser holds it. *)
Record View : Type := mkView {
  props : Props;
  state : State;
  scrollY : Z
}.

(** The response of a visit arrives: the props are the server's; the
    cells are kept under [preserveState] (else the component starts
    over), the scroll position under [preserveScroll] (else the window
    scrolls to the top); the effect on [flash] then runs. *)
Definition receive (v : Visit) (response : Props) (w : View) : View :=
  mkView response
    (flashEffect (flash response)
       (if preserveState v then state w else init response))
    (if preserveScroll v then scrollY w else 0).

(** *** The dialog with its mutations in flight *)

Record Run : Type := mkRun {
  page : State;
  inflight : list (Mutation FormData)
}.

Inductive Event : Type :=
| Trigger                      (** the New Task button *)
| Dismiss                      (** the dialog asks to close *)
| Edit (t : Task)              (** a row's pencil button *)
| Change (d : FormData)        (** typing into a field *)
| Submit                       (** the submit control *)
| RowDelete (taskId : Z)       (** a row's trash button *)
| Succeeded (k : nat)          (** the k-th mutation in flight succeeded *)
| Failed (k : nat).            (** ... or came back with errors *)

(** One event.  [None]: the event cannot happen in this state (the
    form exists only in the open dialog, a disabled control does not
    submit, only a mutation in flight can finish).  A visit started
    outside the dialog's form interrupts the visit in flight, as the
    Inertia router does for every new visit. *)
Definition step (e : Event) (r : Run) : option Run :=
  let s := page r in
  match e with
  | Trigger => Some (mkRun (onOpenChange true s) (inflight r))
  | Dismiss => Some (mkRun (onOpenChange false s) (inflight r))
  | Edit t => Some (mkRun (handleEdit t s) (inflight r))
  | Change d =>
      if isOpen s then Some (mkRun (withForm (setData d) s) (inflight r))
      else None
  | Submit =>
      if dialog_open (renderDialog s) && negb (submit_disabled (renderDialog s))
      then let (s', m) := handleSubmit s in
           Some (mkRun s' (inflight r ++ [m])%list)
      else None
  | RowDelete k =>
      let (s', m) := handleDelete k s in Some (mkRun s' [m])
  | Succeeded k =>
      match nth_error (inflight r) k with
      | Some m => Some (mkRun (onFinish (onSuccess m s)) (drop k (inflight r)))
      | None => None
      end
  | Failed k =>
      match nth_error (inflight r) k with
      | Some _ => Some (mkRun (onFinish s) (drop k (inflight r)))
      | None => None
      end
  end.

Fixpoint run (es : list Event) (r : Run) : option Run :=
  match es with
  | [] => Some r
  | e :: rest =>
      match step e r with
      | Some r' => run rest r'
      | None => None
      end
  end.

Definition start_run (p : Props) : Run := mkRun (init p) [].

Definition dialog_mutations (r : Run) : nat :=
  List.length (List.filter from_dialog (inflight r)).

(** Exactly the mutations in flight keep the helper processing. *)
Definition in_flight_iff_processing (r : Run) : Prop :=
  List.length (inflight r) =
  if processing (form (page r)) then 1%nat else 0%nat.

(** *** The toast with its timer *)

Inductive ToastEvent : Type :=
| NewFlash (fl : option Http.Flash)   (** a response with a new [flash] prop *)
| Elapse (d : nat)                    (** [d] ms pass *)
| Unmount.

Definition toast_step (e : ToastEvent) (c : React.Component State)
  : React.Component State :=
  match e with
  | NewFlash fl => React.update autoHide (flashEffect fl) c
  | Elapse d => React.elapse autoHide d c
  | Unmount => React.unmount c
  end.

(** The component at its first render with props [p] at time [now],
    before the effect on [flash] has run ([NewFlash (flash p)] is then
    its first event). *)
Definition first_render (now : nat) (p : Props) : React.Component State :=
  React.mount autoHide now (init p).

Definition after (es : list ToastEvent) (c : React.Component State)
  : React.Component State :=
  fold_left (fun c e => toast_step e c) es c.

End TasksPage.

(* ===================================================================== *)
(** ** The Lists index page *)
(* ===================================================================== *)

Module ListsPage.
Import Inertia Ui.

Record Task : Type := mkTask {
  task_id : Z;
  task_title : string;
  task_description : option string;
  is_completed : bool;
  due_date : option string;
  lists_id : Z
}.

Record TaskList : Type := mkTaskList {
  id : Z;
  title : string;
  description : string;
  tasks_count : option Z;
  tasks : option (list Task)
}.

Record PageProps : Type := mkPageProps {
  lists : list TaskList;
  flash : option Http.Flash
}.

Record FormData : Type := mkFormData {
  f_title : string;
  f_description : string
}.

Definition empty_form : FormData := mkFormData "" "".

Record Toast : Type := mkToast {
  show : bool;
  message : string;
  type : ToastType
}.

Record State : Type := mkState {
  isDialogOpen : bool;
  editingList : option TaskList;
  selectedList : option TaskList;
  isTasksDialogOpen : bool;
  toast : Toast;
  listForm : Form FormData
}.

Definition setIsDialogOpen (b : bool) (s : State) : State :=
  mkState b (editingList s) (selectedList s) (isTasksDialogOpen s)
    (toast s) (listForm s).
Definition setEditingList (l : option TaskList) (s : State) : State :=
  mkState (isDialogOpen s) l (selectedList s) (isTasksDialogOpen s)
    (toast s) (listForm s).
Definition setSelectedList (l : option TaskList) (s : State) : State :=
  mkState (isDialogOpen s) (editingList s) l (isTasksDialogOpen s)
    (toast s) (listForm s).
Definition setIsTasksDialogOpen (b : bool) (s : State) : State :=
  mkState (isDialogOpen s) (editingList s) (selectedList s) b
    (toast s) (listForm s).
Definition setToast (g : Toast -> Toast) (s : State) : State :=
  mkState (isDialogOpen s) (editingList s) (selectedList s)
    (isTasksDialogOpen s) (g (toast s)) (listForm s).
Definition withForm (g : Form FormData -> Form FormData) (s : State) : State :=
  mkState (isDialogOpen s) (editingList s) (selectedList s)
    (isTasksDialogOpen s) (toast s) (g (listForm s)).

Definition init : State :=
  mkState false None None false (mkToast false "" ToastSuccess)
    (useForm empty_form).

Definition showToast (msg : string) (t : ToastType) (s : State) : State :=
  setToast (fun _ => mkToast true msg t) s.

(** The effect on [flash]. *)
Definition flashEffect (fl : option Http.Flash) (s : State) : State :=
  if truthy (flash_success fl) then
    showToast (text (flash_success fl)) ToastSuccess s
  else if truthy (flash_error fl) then
    showToast (text (flash_error fl)) ToastError s
  else s.

(** The effect on [toast.show]. *)
Definition autoHide : React.Effect State :=
  React.mkEffect (fun s => show (toast s))
    (fun s => if show (toast s)
              then Some (3000%nat,
                         setToast (fun prev =>
                                     mkToast false (message prev) (type prev)))
              else None).

Definition closeDialogAndResetForm (s : State) : State :=
  setEditingList None (withForm reset (setIsDialogOpen false s)).

Definition handleFormSubmit (s : State) : State * Mutation FormData :=
  match editingList s with
  | Some l => (withForm start s, Put "/lists" (id l) (Inertia.data (listForm s)))
  | None => (withForm start s, Post "/lists" (Inertia.data (listForm s)))
  end.

(** The [onSuccess] callback [handleFormSubmit] attached. *)
Definition onSuccess (m : Mutation FormData) (s : State) : State :=
  match m with
  | Put _ _ _ | Post _ _ => closeDialogAndResetForm s
  | Delete _ _ => s
  end.

Definition onFinish (s : State) : State := withForm finish s.

Definition handleEditList (l : TaskList) (s : State) : State :=
  setIsDialogOpen true
    (withForm (setData (mkFormData (title l) (description l)))
       (setEditingList (Some l) s)).

(** [handleDeleteList]; [confirmed] is the answer to [confirm(...)]. *)
Definition handleDeleteList (listId : Z) (confirmed : bool) (s : State)
  : State * option (Mutation FormData) :=
  if confirmed then (withForm start s, Some (Delete "/lists" listId))
  else (s, None).

Definition handleDialogOpenChange (open : bool) (s : State) : State :=
  let s1 := setIsDialogOpen open s in
  if negb open then closeDialogAndResetForm s1 else s1.

(** [handleListClick]; [fetched] is the outcome of the request for the
    tasks ([None]: it failed), read only when the list carries none. *)
Definition handleListClick (l : TaskList) (fetched : option (list Task))
           (s : State) : State :=
  let s1 := setSelectedList (Some l) s in
  let s2 :=
    match tasks l with
    | Some _ => s1
    | None =>
        match fetched with
        | Some ts =>
            setSelectedList
              (Some (mkTaskList (id l) (title l) (description l)
                       (tasks_count l) (Some ts))) s1
        | None => showToast "Failed to load tasks" ToastError s1
        end
    end in
  setIsTasksDialogOpen true s2.

Record DialogView : Type := mkDialogView {
  dialog_open : bool;
  dialog_title : string;
  dialog_fields : FormData;
  submit_disabled : bool;
  submit_label : string
}.

(** [<ListDialog isOpen=... isEditing={!!editingList} ... />] *)
Definition renderDialog (s : State) : DialogView :=
  let isEditing := match editingList s with Some _ => true | None => false end in
  let isProcessing := processing (listForm s) in
  mkDialogView (isDialogOpen s)
    (if isEditing then "Edit Task List" else "Create New Task List")
    (Inertia.data (listForm s))
    isProcessing
    (if isProcessing then "Processing..."
     else if isEditing then "Update List" else "Create List").

(** [{toast.show && <ToastNotification message=... type=... />}] *)
Definition renderToast (s : State) : option (ToastType * string) :=
  if show (toast s) then Some (type (toast s), message (toast s)) else None.

(** *** The dialog with its mutations in flight *)

Record Run : Type := mkRun {
  page : State;
  inflight : list (Mutation FormData)
}.

Inductive Event : Type :=
| AddList                      (** the New List button *)
| OpenChange (open : bool)     (** the dialog asks to open or close *)
| Edit (l : TaskList)          (** a card's pencil button *)
| Change (d : FormData)        (** typing into a field *)
| Submit                       (** the submit control *)
| CardDelete (listId : Z) (confirmed : bool)
| Succeeded (k : nat)
| Failed (k : nat).

(** One event; [None] when it cannot happen in this state.  A visit
    started outside the dialog's form interrupts the visit in flight,
    as the Inertia router does for every new visit. *)
Definition step (e : Event) (r : Run) : option Run :=
  let s := page r in
  match e with
  | AddList => Some (mkRun (setIsDialogOpen true s) (inflight r))
  | OpenChange b => Some (mkRun (handleDialogOpenChange b s) (inflight r))
  | Edit l => Some (mkRun (handleEditList l s) (inflight r))
  | Change d =>
      if isDialogOpen s
      then Some (mkRun (withForm (setData d) s) (inflight r))
      else None
  | Submit =>
      if dialog_open (renderDialog s) && negb (submit_disabled (renderDialog s))
      then let (s', m) := handleFormSubmit s in
           Some (mkRun s' (inflight r ++ [m])%list)
      else None
  | CardDelete k confirmed =>
      match handleDeleteList k confirmed s with
      | (s', Some m) => Some (mkRun s' [m])
      | (s', None) => Some (mkRun s' (inflight r))
      end
  | Succeeded k =>
      match nth_error (inflight r) k with
      | Some m => Some (mkRun (onFinish (onSuccess m s)) (drop k (inflight r)))
      | None => None
      end
  | Failed k =>
      match nth_error (inflight r) k with
      | Some _ => Some (mkRun (onFinish s) (drop k (inflight r)))
      | None => None
      end
  end.

Fixpoint run (es : list Event) (r : Run) : option Run :=
  match es with
  | [] => Some r
  | e :: rest =>
      match step e r with
      | Some r' => run rest r'
      | None => None
      end
  end.

Definition start_run : Run := mkRun init [].

Definition dialog_mutations (r : Run) : nat :=
  List.length (List.filter from_dialog (inflight r)).

(** Exactly the mutations in flight keep the helper processing. *)
Definition in_flight_iff_processing (r : Run) : Prop :=
  List.length (inflight r) =
  if processing (listForm (page r)) then 1%nat else 0%nat.

(** *** The toast with its timer *)

Inductive ToastEvent : Type :=
| NewFlash (fl : option Http.Flash)
| ListClick (l : TaskList) (fetched : option (list Task))
| Elapse (d : nat)
| Unmount.

Definition toast_step (e : ToastEvent) (c : React.Component State)
  : React.Component State :=
  match e with
  | NewFlash fl => React.update autoHide (flashEffect fl) c
  | ListClick l fetched => React.update autoHide (handleListClick l fetched) c
  | Elapse d => React.elapse autoHide d c
  | Unmount => React.unmount c
  end.

(** The component at its first render, before the effect on [flash]
    has run. *)
Definition first_render (now : nat) : React.Component State :=
  React.mount autoHide now init.

Definition after (es : list ToastEvent) (c : React.Component State)
  : React.Component State :=
  fold_left (fun c e => toast_step e c) es c.

End ListsPage.

(* ===================================================================== *)
(** ** The Tasks index page: pagination controls *)
(* ===================================================================== *)

Module TasksPagination.
Import TasksPage.

(** A pagination button: the page its click asks for, whether it is
    disabled, and whether it is drawn as the current page. *)
Record Control : Type := mkControl {
  target : Z;
  disabled : bool;
  highlighted : bool
}.

(** [Array.from({ length: tasks.last_page }, (_, i) => i + 1)] *)
Definition page_numbers (p : Paginated) : list Z :=
  map (fun i => Z.of_nat i + 1) (seq 0 (Z.to_nat (last_page p))).

(** The previous button, one button per page, the next button. *)
Definition controls (p : Paginated) : list Control :=
  (mkControl (current_page p - 1) (current_page p =? 1) false
   :: map (fun n => mkControl n false (n =? current_page p)) (page_numbers p)
   ++ [mkControl (current_page p + 1) (current_page p =? last_page p) false])%list.

(** The visits the controls can start: a click on a control that is not
    disabled calls [handlePageChange] with its page. *)
Definition requests (s : State) (p : Paginated) : list Visit :=
  map (fun c => handlePageChange (target c) s)
      (List.filter (fun c => negb (disabled c)) (controls p)).

End TasksPagination.

(* ===================================================================== *)
(** ** The Lists index page: cards and the tasks dialog *)
(* ===================================================================== *)

Module ListsPageView.
Import Ui ListsPage.

Definition colors : list string :=
  [ "bg-blue-100 border-blue-200 hover:bg-blue-200/50";
    "bg-green-100 border-green-200 hover:bg-green-200/50";
    "bg-yellow-100 border-yellow-200 hover:bg-yellow-200/50";
    "bg-red-100 border-red-200 hover:bg-red-200/50";
    "bg-purple-100 border-purple-200 hover:bg-purple-200/50";
    "bg-pink-100 border-pink-200 hover:bg-pink-200/50";
    "bg-indigo-100 border-indigo-200 hover:bg-indigo-200/50";
    "bg-teal-100 border-teal-200 hover:bg-teal-200/50";
    "bg-orange-100 border-orange-200 hover:bg-orange-200/50";
    "bg-cyan-100 border-cyan-200 hover:bg-cyan-200/50" ].

(** [colors[index % colors.length]], for the index [lists.map] passes;
    [None] stands for [undefined]. *)
Definition getCardColor (index : nat) : option string :=
  nth_error colors (index mod List.length colors).

(** [text.split(' ')]: the pieces between single spaces, empty pieces
    included; never the empty array. *)
Fixpoint split (s : string) : list string :=
  match s with
  | EmptyString => [EmptyString]
  | String c r =>
      if Ascii.eqb c " "%char then EmptyString :: split r
      else match split r with
           | w :: ws => String c w :: ws
           | [] => [String c EmptyString]
           end
  end.

(** [words.join(' ')] *)
Fixpoint join (ws : list string) : string :=
  match ws with
  | [] => ""
  | [w] => w
  | w :: rest => w ++ " " ++ join rest
  end.

(** [truncateText(text, maxWords)]; [None] is [null]. *)
Definition truncateText (text : option string) (maxWords : nat) : string :=
  match text with
  | None => ""
  | Some t =>
      if String.eqb t "" then ""
      else
        let words := split t in
        if (List.length words <=? maxWords)%nat then t
        else join (firstn maxWords words) ++ "..."
  end.

(** What [TaskItem] shows of a task, the due date apart (its text is the
    browser's local date format). *)
Record TaskItemView : Type := mkTaskItemView {
  item_title : string;
  item_struck : bool;
  item_description : option string;
  item_check : bool
}.

Definition renderTaskItem (t : Task) : TaskItemView :=
  mkTaskItemView (task_title t) (is_completed t)
    (if truthy (task_description t)
     then Some (truncateText (task_description t) 10)
     else None)
    (is_completed t).

(** The body of the tasks dialog: the items, or the line
    "No tasks in this list yet.". *)
Inductive DialogBody : Type :=
| Items (items : list TaskItemView)
| NoTasksYet.

Record TasksDialogView : Type := mkTasksDialogView {
  tasks_dialog_open : bool;
  tasks_dialog_title : string;
  tasks_dialog_description : string;
  tasks_dialog_body : DialogBody
}.

(** [TasksDialog]: nothing without a selected list. *)
Definition renderTasksDialog (s : State) : option TasksDialogView :=
  match selectedList s with
  | None => None
  | Some l =>
      Some (mkTasksDialogView (isTasksDialogOpen s) (title l)
              (if String.eqb (description l) "" then "No description provided"
               else description l)
              (match tasks l with
               | Some (t :: ts) => Items (map renderTaskItem (t :: ts))
               | _ => NoTasksYet
               end))
  end.

End ListsPageView.

(* ===================================================================== *)
(** ** The Dashboard page *)
(* ===================================================================== *)

Module DashboardPage.

Record TaskList : Type := mkTaskList {
  id : Z;
  title : string;
  description : option string;
  created_at : string;
  updated_at : string
}.

Section Recent.
(** [new Date(s).getTime()] on the timestamps the server sends. *)
Variable getTime : string -> Z.

(** [new Date(l.updated_at || l.created_at).getTime()] *)
Definition stamp (l : TaskList) : Z :=
  getTime (if String.eqb (updated_at l) "" then created_at l else updated_at l).

(** The comparator [(a, b) => stamp(b) - stamp(a)] puts [a] first when
    it is not positive. *)
Definition keeps_first (a b : TaskList) : bool := stamp b - stamp a <=? 0.

Fixpoint place (x : TaskList) (l : list TaskList) : list TaskList :=
  match l with
  | [] => [x]
  | y :: r => if keeps_first x y then x :: y :: r else y :: place x r
  end.

(** [[...lists].sort(comparator)]: the sort is stable, so the result is
    the one of the stable insertion sort. *)
Definition sortedLists (lists : list TaskList) : list TaskList :=
  fold_right place [] lists.

(** The "Recent Lists" card: [sortedLists.slice(0, 5)], or [None] for
    the line "No lists yet". *)
Definition recentLists (lists : list TaskList) : option (list TaskList) :=
  match sortedLists lists with
  | [] => None
  | l => Some (firstn 5 l)
  end.

End Recent.

End DashboardPage.

(* ===================================================================== *)
(** ** Concrete data used by the examples below *)
(* ===================================================================== *)

Module Examples.
Import Php Models.

(** Two users: 1 is the caller, 2 is somebody else. *)
Definition alice : Z := 1.
Definition bob : Z := 2.

(** A list owned by bob, created and last updated at time 100. *)
Definition bobs_list : TaskList :=
  mkTaskList 1 "Bob's plans" (Some "private") bob 100 100.

(** A list owned by alice, created and last updated at time 100. *)
Definition chores : TaskList :=
  mkTaskList 1 "Chores" None alice 100 100.

Definition rename_request : ListController.Request :=
  ListController.mkRequest (Some (VStr "Mine now")) (Some (VStr "taken")).

Definition groceries_request : ListController.Request :=
  ListController.mkRequest (Some (VStr "Groceries")) None.

(** A title of one space. *)
Definition blank_title_request : ListController.Request :=
  ListController.mkRequest (Some (VStr " ")) None.

Definition buy_milk : Task :=
  mkTask 1 "Buy milk" None (VBool true) None 1 100 100.
Definition buy_bread : Task :=
  mkTask 2 "Buy bread" None (VBool false) None 1 100 100.

(** Client side: a task as the Tasks page receives it. *)
Definition report : TasksPage.Task :=
  TasksPage.mkTask 7 "Write report" (Some "Q3 numbers") false
    (Some "2025-01-31") 1 (1, "Chores").

(** The tasks page showing page 2 of 3. *)
Definition page_two : TasksPage.Props :=
  TasksPage.mkProps
    (TasksPage.mkPaginated [report] 2 3 15 31 16 30)
    [(1, "Chores")]
    (TasksPage.mkFilters "rep" TasksPage.all)
    None.

Definition page_two_view : TasksPage.View :=
  TasksPage.mkView page_two (TasksPage.init page_two) 480.

(** A response carrying both flash messages. *)
Definition both_flashes : option Http.Flash :=
  Some (Http.mkFlash (Some "Task saved") (Some "Something failed")).

Definition draft : TasksPage.FormData :=
  TasksPage.mkFormData "Call plumber" "" "" "1" false.

Definition list_draft : ListsPage.FormData :=
  ListsPage.mkFormData "Errands" "".

End Examples.

(** Further concrete data: timestamps written as numbers of seconds. *)
Module Scenarios.

(** A reading of such timestamps, standing for [new Date(s).getTime()]. *)
Definition seconds (s : string) : Z :=
  match NilZero.int_of_string s with
  | Some i => Z.of_int i
  | None => 0
  end.

Definition errands : DashboardPage.TaskList :=
  DashboardPage.mkTaskList 1 "Errands" None "100" "300".
Definition garden : DashboardPage.TaskList :=
  DashboardPage.mkTaskList 2 "Garden" None "200" "".
Definition reading : DashboardPage.TaskList :=
  DashboardPage.mkTaskList 3 "Reading" None "150" "200".

End Scenarios.

(* ===================================================================== *)
(** ** Conditions the properties are stated with *)
(* ===================================================================== *)

Module Conditions.
Import Php Validation.

(** The title condition in the specification's words: a present,
    non-empty string of at most 255 characters. *)
Definition title_as_specified (a : attribute) : bool :=
  match a with
  | Some (VStr s) => negb (String.eqb s "") && (String.length s <=? 255)%nat
  | _ => false
  end.

(** The titles [store] and [update] accept: a present string that is not
    blank (not empty once trimmed) and has at most 255 characters. *)
Definition title_accepted (a : attribute) : bool :=
  match a with
  | Some (VStr s) => negb (blank s) && (String.length s <=? 255)%nat
  | _ => false
  end.

(** The descriptions they accept: absent, [null] or a string. *)
Definition description_accepted (a : attribute) : bool :=
  match a with
  | None | Some VNull | Some (VStr _) => true
  | Some _ => false
  end.

(** [is_completed] is a strict boolean. *)
Definition strict_boolean (v : value) : Prop := exists b, v = VBool b.

End Conditions.

(* ===================================================================== *)
(** * Properties of the controllers *)
(* ===================================================================== *)

Module ListControllerFacts.
Import Php Validation Models Http ListController.

Lemma TaskList_eqb_refl (l : TaskList) : TaskList_eqb l l = true.
Proof.
  unfold TaskList_eqb.
  rewrite !Z.eqb_refl, String.eqb_refl.
  destruct (description l) as [d|]; simpl; [rewrite String.eqb_refl|];
    reflexivity.
Qed.

(** [save] never touches the key, the owner or the creation time of the
    row it is given. *)
Lemma save_fields (now : Z) (old new : TaskList) :
  id old = id new -> user_id old = user_id new ->
  created_at old = created_at new ->
  id (save now old new) = id new /\
  user_id (save now old new) = user_id new /\
  created_at (save now old new) = created_at new.
Proof.
  intros Hi Hu Hc. unfold save.
  destruct (TaskList_eqb old new); simpl; auto.
Qed.

Lemma resolve_id (key : Z) (tbl : Table) (l : TaskList) :
  resolve key tbl = Some l -> id l = key /\ In l tbl.
Proof.
  unfold resolve. intros H. apply find_some in H as [Hin Hk].
  apply Z.eqb_eq in Hk. auto.
Qed.

(** The read path is scoped: [index] returns the caller's rows only. *)
Lemma index_scoped (auth : Z) (tbl : Table) (l : TaskList) :
  In l (index auth tbl) <-> In l tbl /\ user_id l = auth.
Proof.
  unfold index. rewrite filter_In, Z.eqb_eq. reflexivity.
Qed.

(** What a successful [update] writes, when the row belongs to the
    caller: the table is the old one with the row of that key replaced
    by a row with the same key, owner and creation time. *)
Lemma update_frame_owned (auth now key : Z) (r : Request) (tbl tbl' : Table)
      (fl : Flash) :
  (forall l, resolve key tbl = Some l -> user_id l = auth) ->
  update auth now key r tbl = (tbl', Redirect "lists.index" fl) ->
  exists old new,
    resolve key tbl = Some old /\
    tbl' = map (fun l => if id l =? key then new else l) tbl /\
    id new = id old /\ user_id new = user_id old /\
    created_at new = created_at old.
Proof.
  intros Hown. unfold update.
  destruct (resolve key tbl) as [l|] eqn:Hl; [|discriminate].
  destruct (validate r) as [es|v]; [discriminate|].
  intros H. injection H as <- _.
  pose proof (resolve_id _ _ _ Hl) as [Hk _].
  pose proof (Hown l eq_refl) as Hu.
  exists l, (save now l (fill auth v l)).
  assert (Hf : id l = id (fill auth v l) /\
               user_id l = user_id (fill auth v l) /\
               created_at l = created_at (fill auth v l)).
  { unfold fill. destruct (v_description v); simpl; auto. }
  destruct Hf as (Hi & Hu' & Hc).
  destruct (save_fields now l (fill auth v l) Hi Hu' Hc) as (S1 & S2 & S3).
  repeat split; try congruence.
  unfold replace_row. rewrite S1, <- Hi, Hk. reflexivity.
Qed.

End ListControllerFacts.

Module DashboardFacts.
Import Php Models Http DashboardController.

Section OrderByFacts.
Context {A : Type} (updated created : A -> Z).

Lemma row_before_total (a b : A) :
  row_before updated created a b = false ->
  row_before updated created b a = true.
Proof.
  unfold row_before, before. intros H.
  apply orb_false_iff in H as [H1 H2].
  apply Z.ltb_ge in H1.
  destruct (Z.ltb_spec (updated a) (updated b)) as [Hlt|Hge]; [reflexivity|].
  simpl. assert (E : updated a = updated b) by lia.
  rewrite E, Z.eqb_refl in *. simpl in *.
  apply Z.leb_gt in H2. apply Z.leb_le. lia.
Qed.

Lemma insert_row_perm (x : A) (l : list A) :
  Permutation (x :: l) (insert_row updated created x l).
Proof.
  induction l as [|y r IH]; simpl; [reflexivity|].
  destruct (row_before updated created x y); [reflexivity|].
  rewrite perm_swap. constructor. exact IH.
Qed.

Lemma orderBy_perm (l : list A) :
  Permutation l (orderBy updated created l).
Proof.
  induction l as [|x r IH]; simpl; [constructor|].
  unfold orderBy in *. simpl.
  rewrite <- insert_row_perm. constructor. exact IH.
Qed.

Lemma insert_row_hd (x y : A) (l : list A) :
  HdRel (ordered_before updated created) y l -> row_before updated created y x = true ->
  HdRel (ordered_before updated created) y (insert_row updated created x l).
Proof.
  intros Hl Hyx. destruct l as [|z r]; simpl.
  - constructor. exact Hyx.
  - destruct (row_before updated created x z); constructor; auto.
    inversion Hl; assumption.
Qed.

Lemma insert_row_sorted (x : A) (l : list A) :
  Sorted (ordered_before updated created) l ->
  Sorted (ordered_before updated created) (insert_row updated created x l).
Proof.
  induction 1 as [|y r Hs IH Hhd]; simpl.
  - repeat constructor.
  - destruct (row_before updated created x y) eqn:E.
    + repeat constructor; assumption.
    + constructor; [exact IH|].
      apply insert_row_hd; [exact Hhd|].
      apply row_before_total; exact E.
Qed.

(** [orderBy] returns its rows by [updated] descending, ties by
    [created] descending. *)
Lemma orderBy_sorted (l : list A) :
  Sorted (ordered_before updated created) (orderBy updated created l).
Proof.
  induction l as [|x r IH]; [constructor|].
  unfold orderBy in *. simpl. apply insert_row_sorted. exact IH.
Qed.
End OrderByFacts.

(** The dashboard does order the caller's lists. *)
Lemma dashboard_lists_sorted (auth : Z) (session : Flash)
      (ls : list TaskList) (ts : list Task) :
  Sorted (ordered_before updated_at created_at)
         (lists (index auth session ls ts)).
Proof. apply orderBy_sorted. Qed.

(** The two [where] filters split any collection. *)
Lemma where_split (ts : list Task) :
  Permutation ts (where_is_completed true ts ++ where_is_completed false ts).
Proof.
  induction ts as [|t r IH]; simpl; [constructor|].
  unfold loose_eq_bool.
  destruct (truthy (is_completed t)); simpl.
  - constructor. exact IH.
  - apply Permutation_cons_app. exact IH.
Qed.

Lemma where_disjoint (ts : list Task) (t : Task) :
  In t (where_is_completed true ts) -> In t (where_is_completed false ts) ->
  False.
Proof.
  unfold where_is_completed, loose_eq_bool.
  rewrite !filter_In. intros [_ H1] [_ H2].
  destruct (truthy (is_completed t)); discriminate.
Qed.

(** On a strict boolean the loose comparison is equality. *)
Lemma loose_eq_bool_strict (b c : bool) :
  loose_eq_bool (VBool b) c = Bool.eqb b c.
Proof. reflexivity. Qed.

End DashboardFacts.

Module ValidationFacts.
Import Php Validation Models Http ListController Conditions.

Lemma title_failures (a : attribute) :
  failures title_rules a = [] <-> title_accepted a = true.
Proof.
  unfold failures, title_rules, title_accepted.
  destruct a as [[|b|z|s]|]; cbn; unfold isValidatable; cbn;
    try (split; discriminate).
  destruct (blank s); cbn; [split; discriminate|].
  destruct (String.length s <=? 255)%nat; cbn; split;
    try reflexivity; discriminate.
Qed.

Lemma description_failures (a : attribute) :
  failures description_rules a = [] <-> description_accepted a = true.
Proof.
  unfold failures, description_rules, description_accepted.
  destruct a as [[|b|z|s]|]; cbn; unfold isValidatable; cbn;
    try (split; (reflexivity || discriminate)).
  destruct (blank s); cbn; split; reflexivity.
Qed.

Lemma field_errors_nil (name : string) (rs : list rule) (a : attribute) :
  field_errors name rs a = [] <-> failures rs a = [].
Proof.
  unfold field_errors. destruct (failures rs a); split;
    (reflexivity || discriminate).
Qed.

Lemma field_errors_shape (name : string) (rs : list rule) (a : attribute) :
  Forall (fun e => fst e = name /\ snd e <> []) (field_errors name rs a).
Proof.
  unfold field_errors. destruct (failures rs a) eqn:E; constructor.
  - simpl. split; [reflexivity|discriminate].
  - constructor.
Qed.

(** [validate] succeeds exactly on an accepted title with an accepted
    description, and then hands the title on unchanged. *)
Lemma validate_accepts (r : Request) :
  title_accepted (in_title r) && description_accepted (in_description r) = true ->
  exists s, in_title r = Some (VStr s) /\
            validate r = inr (mkValidated s (validated_description (in_description r))).
Proof.
  intros H. apply andb_true_iff in H as [Ht Hd].
  unfold validate.
  rewrite (proj2 (field_errors_nil "title" _ _) (proj2 (title_failures _) Ht)).
  rewrite (proj2 (field_errors_nil "description" _ _)
             (proj2 (description_failures _) Hd)).
  simpl. unfold title_accepted in Ht.
  destruct (in_title r) as [[|b|z|s]|]; try discriminate.
  exists s. split; reflexivity.
Qed.

Lemma validate_rejects (r : Request) :
  title_accepted (in_title r) && description_accepted (in_description r) = false ->
  exists es, validate r = inl es /\ es <> [] /\
    es = (field_errors "title" title_rules (in_title r) ++
          field_errors "description" description_rules (in_description r))%list.
Proof.
  intros H. unfold validate.
  destruct (field_errors "title" title_rules (in_title r) ++
            field_errors "description" description_rules (in_description r))%list
    as [|e es] eqn:E.
  - apply app_eq_nil in E as [E1 E2].
    apply field_errors_nil, title_failures in E1.
    apply field_errors_nil, description_failures in E2.
    rewrite E1, E2 in H. discriminate.
  - exists (e :: es). repeat split. discriminate.
Qed.

Lemma next_id_above (tbl : Table) (l : TaskList) :
  In l tbl -> id l < next_id tbl.
Proof.
  unfold next_id. induction tbl as [|x r IH]; cbn [In fold_right]; [tauto|].
  intros [->|Hin]; [lia|]. specialize (IH Hin). lia.
Qed.

End ValidationFacts.

Module ControllerProperties.
Import Php Validation Models Http ListController Conditions Examples.
Import ListControllerFacts ValidationFacts DashboardFacts.

(** C1 (owner scoping of update and delete on a List).
    The read path is scoped to the caller, the write paths are not: with
    the one stored List owned by bob, alice's [index] shows nothing, yet
    her [update] of that key rewrites the row and answers with the success
    redirect, and her [destroy] removes the row, where the property asks
    for NotFound and an unchanged row. *)
Theorem update_destroy_reach_foreign_list :
  index alice [bobs_list] = [] /\
  update alice 200 1 rename_request [bobs_list] =
    ([mkTaskList 1 "Mine now" (Some "taken") alice 100 200],
     Redirect "lists.index" (mkFlash (Some "List updated successfully") None)) /\
  destroy alice 1 [bobs_list] =
    ([], Redirect "lists.index" (mkFlash (Some "List Deleted Successfully") None)).
Proof. repeat split. Qed.

(** C2 (an update changes title, description and updated_at only).
    [update] writes [user_id := Auth::id()] with the other attributes: on
    bob's List, updated by alice, the stored owner changes from bob to
    alice. *)
Theorem update_rewrites_owner :
  exists l',
    update alice 200 1 rename_request [bobs_list] =
      ([l'],
       Redirect "lists.index" (mkFlash (Some "List updated successfully") None)) /\
    id l' = id bobs_list /\
    user_id bobs_list = bob /\ user_id l' = alice /\ alice <> bob.
Proof.
  eexists. repeat split. discriminate.
Qed.

(** C3 (GET /lists is sorted by updated_at descending, a new List first).
    [ListController::index] has no [orderBy]: after alice creates
    "Groceries" at time 200 next to her older list, it returns the older
    list first and the new one last; the dashboard's query, which does
    order, returns the new one first. *)
Theorem lists_index_returns_new_list_last :
  let tbl := fst (store alice 200 groceries_request [chores]) in
  let new := mkTaskList 2 "Groceries" None alice 200 200 in
  tbl = [chores; new] /\
  updated_at chores < updated_at new /\
  index alice tbl = [chores; new] /\
  DashboardController.lists
    (DashboardController.index alice no_flash tbl []) = [new; chores].
Proof. repeat split. Qed.

(** C4 (completed and pending partition all tasks).
    On the dashboard, when every stored task has a strict boolean
    [is_completed], no task is both in the completed and in the pending
    collection, every task of the page is in one of them, the two
    together are a rearrangement of all the tasks, and
    [completedTasks + pendingTasks = totalTasks]. *)
Theorem completed_pending_partition
        (auth : Z) (session : Flash) (ls : list TaskList) (ts : list Task) :
  Forall (fun t => strict_boolean (is_completed t)) ts ->
  let p := DashboardController.index auth session ls ts in
  let all := DashboardController.tasks p in
  let completed := DashboardController.where_is_completed true all in
  let pending := DashboardController.where_is_completed false all in
  Forall (fun t => is_completed t = VBool true) completed /\
  Forall (fun t => is_completed t = VBool false) pending /\
  (forall t, In t completed -> In t pending -> False) /\
  (forall t, In t all <-> In t completed \/ In t pending) /\
  Permutation all (completed ++ pending) /\
  (DashboardController.completedTasks (DashboardController.stats p) +
   DashboardController.pendingTasks (DashboardController.stats p) =
   DashboardController.totalTasks (DashboardController.stats p))%nat.
Proof.
  intros Hstrict p all completed pending.
  assert (Hall : Forall (fun t => strict_boolean (is_completed t)) all).
  { subst all p. simpl.
    eapply Permutation_Forall; [apply orderBy_perm|].
    apply Forall_forall. intros t Ht. apply filter_In in Ht as [Ht _].
    rewrite Forall_forall in Hstrict. auto. }
  assert (Hperm : Permutation all (completed ++ pending)) by apply where_split.
  assert (Hsel : forall b,
             Forall (fun t => is_completed t = VBool b)
                    (DashboardController.where_is_completed b all)).
  { intros b. apply Forall_forall. intros t Ht.
    apply filter_In in Ht as [Hin Hb].
    rewrite Forall_forall in Hall. destruct (Hall t Hin) as [c Hc].
    rewrite Hc in *. rewrite loose_eq_bool_strict in Hb.
    apply Bool.eqb_prop in Hb. congruence. }
  repeat split.
  - apply Hsel.
  - apply Hsel.
  - intros t. apply where_disjoint.
  - intros Hin. apply in_app_or. eapply Permutation_in; eauto.
  - intros Hin. eapply Permutation_in; [symmetry; exact Hperm|].
    apply in_or_app. exact Hin.
  - exact Hperm.
  - simpl. fold all. fold completed. fold pending.
    rewrite <- length_app. symmetry. apply Permutation_length. exact Hperm.
Qed.

Lemma completed_pending_partition_witness :
  Forall (fun t => strict_boolean (is_completed t)) [buy_milk; buy_bread] /\
  DashboardController.where_is_completed false
    (DashboardController.tasks
       (DashboardController.index alice no_flash [chores] [buy_milk; buy_bread]))
  = [buy_bread] /\
  (forall t,
      In t (DashboardController.where_is_completed true
              (DashboardController.tasks
                 (DashboardController.index alice no_flash [chores]
                    [buy_milk; buy_bread]))) ->
      In t (DashboardController.where_is_completed false
              (DashboardController.tasks
                 (DashboardController.index alice no_flash [chores]
                    [buy_milk; buy_bread]))) ->
      False).
Proof.
  assert (H : Forall (fun t => strict_boolean (is_completed t))
                     [buy_milk; buy_bread]).
  { repeat constructor; eexists; reflexivity. }
  split; [exact H|]. split; [reflexivity|].
  exact (proj1 (proj2 (proj2
           (completed_pending_partition alice no_flash [chores]
              [buy_milk; buy_bread] H)))).
Defined.

(** C9, as stated, fails: a title of one space is a present, non-empty
    string of at most 255 characters, and [store] rejects it with a
    validation error on [title] and creates nothing. *)
Lemma blank_title_is_rejected :
  title_as_specified (in_title blank_title_request) = true /\
  store alice 200 blank_title_request [chores] =
    ([chores], Invalid [("title", [Required])]).
Proof. split; reflexivity. Qed.

(** C9, amended (validation of a create-List request).
    [store] succeeds exactly when the title is a present string that is
    not blank and has at most 255 characters and the description is
    absent, null or a string.  Then one row is appended, with a fresh key,
    that title, the caller as owner, and the response is the redirect
    carrying the success flash only.  Otherwise the table is unchanged and
    the response is a validation error naming exactly the fields that
    were not accepted, each with its failed rules. *)
Theorem store_validates_title
        (auth now : Z) (r : Request) (tbl : Table) :
  if title_accepted (in_title r) && description_accepted (in_description r)
  then exists row,
      store auth now r tbl =
        ((tbl ++ [row])%list,
         Redirect "lists.index" (mkFlash (Some "List Created Successfully") None)) /\
      user_id row = auth /\
      in_title r = Some (VStr (title row)) /\
      created_at row = now /\ updated_at row = now /\
      (forall l, In l tbl -> id l <> id row)
  else exists es,
      store auth now r tbl = (tbl, Invalid es) /\
      es <> [] /\
      Forall (fun e => snd e <> []) es /\
      (In "title" (map fst es) <-> title_accepted (in_title r) = false) /\
      (In "description" (map fst es) <->
       description_accepted (in_description r) = false) /\
      (forall f, In f (map fst es) -> f = "title" \/ f = "description").
Proof.
  destruct (title_accepted (in_title r) && description_accepted (in_description r))
    eqn:Hok.
  - destruct (validate_accepts r Hok) as (s & Hs & Hv).
    unfold store. rewrite Hv. cbn [v_title v_description].
    eexists. split; [reflexivity|].
    cbn [id title user_id created_at updated_at].
    repeat split; auto.
    intros l Hin. apply next_id_above in Hin. lia.
  - destruct (validate_rejects r Hok) as (es & Hv & Hne & Hes).
    unfold store. rewrite Hv. exists es. split; [reflexivity|].
    split; [exact Hne|].
    pose proof (field_errors_shape "title" title_rules (in_title r)) as Ft.
    pose proof (field_errors_shape "description" description_rules
                  (in_description r)) as Fd.
    assert (Kt : In "title" (map fst (field_errors "title" title_rules (in_title r)))
                 <-> title_accepted (in_title r) = false).
    { rewrite <- not_true_iff_false, <- title_failures.
      unfold field_errors. destruct (failures title_rules (in_title r));
        simpl; split; intros; try tauto; try congruence; left; reflexivity. }
    assert (Kd : In "description"
                    (map fst (field_errors "description" description_rules
                                (in_description r)))
                 <-> description_accepted (in_description r) = false).
    { rewrite <- not_true_iff_false, <- description_failures.
      unfold field_errors.
      destruct (failures description_rules (in_description r));
        simpl; split; intros; try tauto; try congruence; left; reflexivity. }
    assert (Nt : ~ In "description"
                   (map fst (field_errors "title" title_rules (in_title r)))).
    { intros Hin. apply in_map_iff in Hin as (e & He & Hin).
      rewrite Forall_forall in Ft. destruct (Ft e Hin) as [E _].
      rewrite E in He. discriminate. }
    assert (Nd : ~ In "title"
                   (map fst (field_errors "description" description_rules
                               (in_description r)))).
    { intros Hin. apply in_map_iff in Hin as (e & He & Hin).
      rewrite Forall_forall in Fd. destruct (Fd e Hin) as [E _].
      rewrite E in He. discriminate. }
    subst es. rewrite map_app. repeat split.
    + apply Forall_app. split; eapply Forall_impl; try eassumption;
        intros e [_ H]; exact H.
    + rewrite in_app_iff. intros [H|H]; [apply Kt; exact H|tauto].
    + intros H. apply in_or_app. left. apply Kt. exact H.
    + rewrite in_app_iff. intros [H|H]; [tauto|apply Kd; exact H].
    + intros H. apply in_or_app. right. apply Kd. exact H.
    + intros f Hin. apply in_app_or in Hin as [Hin|Hin];
        apply in_map_iff in Hin as (e & He & Hin).
      * rewrite Forall_forall in Ft. destruct (Ft e Hin) as [E _].
        left. congruence.
      * rewrite Forall_forall in Fd. destruct (Fd e Hin) as [E _].
        right. congruence.
Qed.

End ControllerProperties.

(* ===================================================================== *)
(** * Properties of the client pages *)
(* ===================================================================== *)

Module ReactFacts.
Import React.

Section AutoDismiss.
Context {S : Type} (eff : Effect S) (delay : nat) (hide : S -> S).
Hypothesis delay_pos : (0 < delay)%nat.
Hypothesis body_on :
  forall s, dep eff s = true -> body eff s = Some (delay, hide).
Hypothesis body_off : forall s, dep eff s = false -> body eff s = None.
Hypothesis hide_off : forall s, dep eff (hide s) = false.

Lemma schedule_on (now : nat) (s : S) :
  dep eff s = true -> schedule eff now s = Some ((now + delay)%nat, hide).
Proof using body_on. intros H. unfold schedule. rewrite (body_on s H). reflexivity. Qed.

Lemma schedule_off (now : nat) (s : S) :
  dep eff s = false -> schedule eff now s = None.
Proof using body_off. intros H. unfold schedule. rewrite (body_off s H). reflexivity. Qed.

Lemma mount_well_timed (now : nat) (s : S) :
  well_timed eff delay hide (mount eff now s).
Proof using delay_pos body_on body_off.
  unfold well_timed, mount. simpl.
  destruct (dep eff s) eqn:D.
  - rewrite (schedule_on now s D). repeat split; auto; lia.
  - rewrite (schedule_off now s D). auto.
Qed.

Lemma render_well_timed (s' : S) (c : Component S) :
  mounted c = true ->
  well_timed eff delay hide c -> well_timed eff delay hide (render eff s' c).
Proof using delay_pos body_on body_off.
  intros M W. unfold render.
  destruct (Bool.eqb (dep eff (cells c)) (dep eff s')) eqn:E.
  - apply Bool.eqb_prop in E. unfold well_timed in *. simpl.
    destruct (timer c) as [[t cb]|]; rewrite <- E; exact W.
  - unfold well_timed. simpl. destruct (dep eff s') eqn:D.
    + rewrite (schedule_on _ _ D). repeat split; auto; lia.
    + rewrite (schedule_off _ _ D). auto.
Qed.

Lemma update_well_timed (f : S -> S) (c : Component S) :
  well_timed eff delay hide c -> well_timed eff delay hide (update eff f c).
Proof using delay_pos body_on body_off.
  intros W. unfold update. destruct (mounted c) eqn:M; [|exact W].
  apply render_well_timed; assumption.
Qed.

Lemma unmount_well_timed (c : Component S) :
  well_timed eff delay hide (unmount c).
Proof using. unfold well_timed, unmount. simpl. discriminate. Qed.

(** A timeout that fires hides the toast and leaves nothing pending. *)
Lemma fire (s : S) (now : nat) :
  dep eff s = true ->
  update eff hide (mkComponent true s None now) =
  mkComponent true (hide s) None now.
Proof using body_off hide_off.
  intros D. unfold update, render. simpl.
  rewrite D, hide_off. simpl. rewrite (schedule_off _ _ (hide_off s)).
  reflexivity.
Qed.

Lemma tick_well_timed (c : Component S) :
  well_timed eff delay hide c -> well_timed eff delay hide (tick eff c).
Proof using body_off hide_off.
  clear delay_pos.
  intros W. unfold tick. unfold well_timed in W.
  destruct (timer c) as [[t cb]|] eqn:T.
  - destruct W as (M & D & -> & Hlo & Hhi).
    destruct (t <=? Datatypes.S (clock c))%nat eqn:L.
    + rewrite M, (fire _ _ D). unfold well_timed. simpl.
      intros _. apply hide_off.
    + apply Nat.leb_gt in L. unfold well_timed. simpl.
      repeat split; auto; lia.
  - unfold well_timed. simpl. exact W.
Qed.

Lemma elapse_well_timed (d : nat) (c : Component S) :
  well_timed eff delay hide c -> well_timed eff delay hide (elapse eff d c).
Proof using body_off hide_off.
  intros W. unfold elapse. induction d as [|d IH]; simpl; [exact W|].
  apply tick_well_timed. exact IH.
Qed.

(** With no timeout pending, time only moves the clock. *)
Lemma elapse_idle (d : nat) (c : Component S) :
  timer c = None ->
  elapse eff d c = mkComponent (mounted c) (cells c) None (clock c + d).
Proof using.
  clear delay_pos.
  intros T. unfold elapse. induction d as [|d IH]; simpl.
  - rewrite Nat.add_0_r. destruct c; simpl in *. subst. reflexivity.
  - rewrite IH. unfold tick. simpl. f_equal. lia.
Qed.

(** With a timeout due in [k] ms on a visible toast, the cells stay as
    they are for [k - 1] ms and the toast is hidden from then on. *)
Lemma elapse_countdown (k d : nat) (c : Component S) :
  mounted c = true -> dep eff (cells c) = true ->
  timer c = Some ((clock c + k)%nat, hide) -> (0 < k)%nat ->
  elapse eff d c =
  if (d <? k)%nat
  then mkComponent true (cells c) (timer c) (clock c + d)
  else mkComponent true (hide (cells c)) None (clock c + d).
Proof using body_off hide_off.
  clear delay_pos.
  intros M D T K. unfold elapse. induction d as [|d IH]; simpl.
  - destruct (Nat.ltb_spec 0 k); [|lia].
    rewrite Nat.add_0_r. destruct c; simpl in *. subst. reflexivity.
  - rewrite IH. destruct (Nat.ltb_spec d k) as [Hlt|Hge].
    + unfold tick. simpl. rewrite T.
      destruct (Nat.leb_spec (clock c + k) (Datatypes.S (clock c + d)))
        as [Hfire|Hwait].
      * destruct (Nat.ltb_spec (Datatypes.S d) k); [lia|].
        rewrite (fire _ _ D). f_equal. lia.
      * destruct (Nat.ltb_spec (Datatypes.S d) k); [|lia].
        f_equal. lia.
    + destruct (Nat.ltb_spec (Datatypes.S d) k); [lia|].
      unfold tick. simpl. f_equal. lia.
Qed.

(** A state update that switches the dependency on starts the timeout. *)
Lemma update_shows (f : S -> S) (c : Component S) :
  mounted c = true -> dep eff (cells c) = false ->
  dep eff (f (cells c)) = true ->
  update eff f c =
  mkComponent true (f (cells c)) (Some ((clock c + delay)%nat, hide)) (clock c).
Proof using body_on.
  intros M D D'. unfold update, render. rewrite M, D, D'. simpl.
  rewrite (schedule_on _ _ D'). reflexivity.
Qed.

Lemma update_unmounted (f : S -> S) (c : Component S) :
  mounted c = false -> update eff f c = c.
Proof using. intros M. unfold update. rewrite M. reflexivity. Qed.

Lemma update_cells (f : S -> S) (c : Component S) :
  mounted c = true -> cells (update eff f c) = f (cells c).
Proof using.
  intros M. unfold update, render. rewrite M.
  destruct (Bool.eqb _ _); reflexivity.
Qed.

(** The three parts of [auto_dismiss], for a step function whose events
    are state updates, the passing of time, or the unmount. *)
Lemma well_timed_pending (c : Component S) (t : nat) (cb : S -> S) :
  well_timed eff delay hide c -> timer c = Some (t, cb) ->
  mounted c = true /\ dep eff (cells c) = true /\
  (clock c < t <= clock c + delay)%nat.
Proof using.
  unfold well_timed. intros W T. rewrite T in W. tauto.
Qed.

Lemma well_timed_hidden (c : Component S) :
  well_timed eff delay hide c -> dep eff (cells c) = false -> timer c = None.
Proof using.
  unfold well_timed. intros W D.
  destruct (timer c) as [[t cb]|]; [|reflexivity].
  destruct W as (_ & D' & _). congruence.
Qed.

Lemma shown_then_dismissed (f : S -> S) (c : Component S) :
  dep eff (cells c) = false -> dep eff (cells (update eff f c)) = true ->
  (exists cb,
     timer (update eff f c) = Some ((clock (update eff f c) + delay)%nat, cb)) /\
  (forall d, dep eff (cells (elapse eff d (update eff f c))) = (d <? delay)%nat).
Proof using delay_pos body_on body_off hide_off.
  intros D D'. destruct (mounted c) eqn:M.
  - rewrite (update_cells f c M) in D'.
    rewrite (update_shows f c M D D'). simpl. split.
    + eexists. reflexivity.
    + intros d.
      rewrite (elapse_countdown delay d); simpl; auto.
      destruct (d <? delay)%nat; simpl; auto.
  - rewrite (update_unmounted f c M) in D'. congruence.
Qed.

Lemma unmounted_stays (c : Component S) (d : nat) :
  timer (unmount c) = None /\ cells (elapse eff d (unmount c)) = cells c.
Proof using.
  split; [reflexivity|]. rewrite elapse_idle; reflexivity.
Qed.

End AutoDismiss.

End ReactFacts.

Module TasksPageFacts.
Import Inertia Ui React ReactFacts TasksPage.

(** *** The toast *)

Lemma tasks_autoHide_on (s : State) :
  dep autoHide s = true -> body autoHide s = Some (3000%nat, setShowToast false).
Proof. simpl. intros ->. reflexivity. Qed.

Lemma tasks_autoHide_off (s : State) :
  dep autoHide s = false -> body autoHide s = None.
Proof. simpl. intros ->. reflexivity. Qed.

Lemma tasks_hide_off (s : State) : dep autoHide (setShowToast false s) = false.
Proof. reflexivity. Qed.

Lemma tasks_delay_pos : (0 < 3000)%nat.
Proof. lia. Qed.

Lemma tasks_step_well_timed (e : ToastEvent) (c : Component State) :
  well_timed autoHide 3000 (setShowToast false) c ->
  well_timed autoHide 3000 (setShowToast false) (toast_step e c).
Proof.
  intros W. destruct e as [fl|d|]; simpl.
  - apply update_well_timed;
      auto using tasks_delay_pos, tasks_autoHide_on, tasks_autoHide_off.
  - apply elapse_well_timed;
      auto using tasks_delay_pos, tasks_autoHide_on, tasks_autoHide_off,
        tasks_hide_off.
  - apply unmount_well_timed.
Qed.

Lemma tasks_after_well_timed (es : list ToastEvent) (c : Component State) :
  well_timed autoHide 3000 (setShowToast false) c ->
  well_timed autoHide 3000 (setShowToast false) (after es c).
Proof.
  revert c. induction es as [|e es IH]; intros c W; simpl; [exact W|].
  apply IH, tasks_step_well_timed, W.
Qed.

(** The auto-dismiss behaviour in any well-timed state of the page. *)
Lemma tasks_auto_dismiss (c : Component State) :
  well_timed autoHide 3000 (setShowToast false) c ->
  auto_dismiss autoHide showToast toast_step 3000 c.
Proof.
  intros W. split; [|split].
  - intros t cb T.
    exact (well_timed_pending autoHide 3000 (setShowToast false) c t cb W T).
  - intros e Hoff Hon. destruct e as [fl|d|]; simpl in *.
    + apply (shown_then_dismissed autoHide 3000 (setShowToast false));
        auto using tasks_delay_pos, tasks_autoHide_on, tasks_autoHide_off,
          tasks_hide_off.
    + rewrite (elapse_idle autoHide d c) in Hon.
      * simpl in Hon. congruence.
      * exact (well_timed_hidden autoHide 3000 (setShowToast false) c W Hoff).
    + congruence.
  - split; [reflexivity|]. intros d.
    apply (unmounted_stays autoHide c d).
Qed.

(** The effect on [flash] leaves the cells that are not the toast's. *)
Lemma tasks_flashEffect_frame (fl : option Http.Flash) (s : State) :
  let s' := flashEffect fl s in
  isOpen s' = isOpen s /\ editingTask s' = editingTask s /\
  searchTerm s' = searchTerm s /\ completionFilter s' = completionFilter s /\
  form s' = form s.
Proof.
  unfold flashEffect.
  destruct (truthy (flash_success fl)); [|destruct (truthy (flash_error fl))];
    simpl; auto.
Qed.

(** *** The dialog *)

Lemma drop_only {A : Type} (k : nat) (l : list A) (x : A) :
  List.length l = 1%nat -> nth_error l k = Some x -> drop k l = [].
Proof.
  destruct l as [|y [|z l]]; simpl; try discriminate.
  intros _. destruct k as [|[|k]]; simpl; try discriminate. reflexivity.
Qed.

Lemma tasks_step_inv (e : Event) (r r' : Run) :
  in_flight_iff_processing r -> step e r = Some r' -> in_flight_iff_processing r'.
Proof.
  unfold in_flight_iff_processing. destruct r as [s fl]. intros I H.
  destruct e; simpl in H.
  - injection H as <-. exact I.
  - injection H as <-. exact I.
  - injection H as <-. exact I.
  - destruct (isOpen s); [|discriminate]. injection H as <-. exact I.
  - destruct (isOpen s); [|discriminate]. simpl in *.
    destruct (processing (form s)) eqn:P; [discriminate|]. simpl in H.
    unfold handleSubmit in H.
    destruct (editingTask s); injection H as <-; simpl in *;
      rewrite length_app, I; reflexivity.
  - injection H as <-. reflexivity.
  - simpl in *. destruct (nth_error fl k) as [m|] eqn:N; [|discriminate].
    injection H as <-. simpl.
    destruct (processing (form s)).
    + rewrite (drop_only k fl m I N). destruct m; reflexivity.
    + destruct fl; [destruct k|]; discriminate.
  - simpl in *. destruct (nth_error fl k) as [m|] eqn:N; [|discriminate].
    injection H as <-. simpl.
    destruct (processing (form s)).
    + rewrite (drop_only k fl m I N). reflexivity.
    + destruct fl; [destruct k|]; discriminate.
Qed.

Lemma tasks_run_inv (es : list Event) (r r' : Run) :
  in_flight_iff_processing r -> run es r = Some r' -> in_flight_iff_processing r'.
Proof.
  revert r. induction es as [|e es IH]; intros r I H; simpl in H.
  - injection H as <-. exact I.
  - destruct (step e r) as [r1|] eqn:S1; [|discriminate].
    eapply IH; [|exact H]. eapply tasks_step_inv; eauto.
Qed.

Lemma filter_length_le {A : Type} (f : A -> bool) (l : list A) :
  (List.length (List.filter f l) <= List.length l)%nat.
Proof.
  induction l as [|x l IH]; simpl; [lia|]. destruct (f x); simpl; lia.
Qed.

End TasksPageFacts.

Module ListsPageFacts.
Import Inertia Ui React ReactFacts ListsPage.

(** *** The toast *)

Lemma lists_autoHide_on (s : State) :
  dep autoHide s = true ->
  body autoHide s =
  Some (3000%nat,
        setToast (fun prev => mkToast false (message prev) (type prev))).
Proof. simpl. intros ->. reflexivity. Qed.

Lemma lists_autoHide_off (s : State) :
  dep autoHide s = false -> body autoHide s = None.
Proof. simpl. intros ->. reflexivity. Qed.

Lemma lists_hide_off (s : State) :
  dep autoHide
      (setToast (fun prev => mkToast false (message prev) (type prev)) s) = false.
Proof. reflexivity. Qed.

Lemma lists_step_well_timed (e : ToastEvent) (c : Component State) :
  well_timed autoHide 3000
    (setToast (fun prev => mkToast false (message prev) (type prev))) c ->
  well_timed autoHide 3000
    (setToast (fun prev => mkToast false (message prev) (type prev)))
    (toast_step e c).
Proof.
  intros W. destruct e as [fl|l fetched|d|]; simpl.
  - apply update_well_timed;
      auto using lists_autoHide_on, lists_autoHide_off. lia.
  - apply update_well_timed;
      auto using lists_autoHide_on, lists_autoHide_off. lia.
  - apply elapse_well_timed;
      auto using lists_autoHide_off, lists_hide_off.
  - apply unmount_well_timed.
Qed.

Lemma lists_after_well_timed (es : list ToastEvent) (c : Component State) :
  well_timed autoHide 3000
    (setToast (fun prev => mkToast false (message prev) (type prev))) c ->
  well_timed autoHide 3000
    (setToast (fun prev => mkToast false (message prev) (type prev)))
    (after es c).
Proof.
  revert c. induction es as [|e es IH]; intros c W; simpl; [exact W|].
  apply IH, lists_step_well_timed, W.
Qed.

Lemma lists_auto_dismiss (c : Component State) :
  well_timed autoHide 3000
    (setToast (fun prev => mkToast false (message prev) (type prev))) c ->
  auto_dismiss autoHide (fun s => show (toast s)) toast_step 3000 c.
Proof.
  intros W. split; [|split].
  - intros t cb T.
    exact (well_timed_pending autoHide 3000 _ c t cb W T).
  - intros e Hoff Hon. destruct e as [fl|l fetched|d|]; simpl in *.
    + apply (shown_then_dismissed autoHide 3000
               (setToast (fun prev => mkToast false (message prev) (type prev))));
        auto using lists_autoHide_on, lists_autoHide_off, lists_hide_off.
      lia.
    + apply (shown_then_dismissed autoHide 3000
               (setToast (fun prev => mkToast false (message prev) (type prev))));
        auto using lists_autoHide_on, lists_autoHide_off, lists_hide_off.
      lia.
    + rewrite (elapse_idle autoHide d c) in Hon.
      * simpl in Hon. congruence.
      * exact (well_timed_hidden autoHide 3000 _ c W Hoff).
    + congruence.
  - split; [reflexivity|]. intros d.
    apply (unmounted_stays autoHide c d).
Qed.

(** *** The dialog *)

(** Closing the Lists dialog, whatever its state: the dialog is closed,
    no list is being edited and the fields are the form's defaults. *)
Lemma lists_close_discards (s : State) :
  let s' := handleDialogOpenChange false s in
  isDialogOpen s' = false /\ editingList s' = None /\
  Inertia.data (listForm s') = defaults (listForm s) /\
  defaults (listForm s') = defaults (listForm s) /\
  processing (listForm s') = processing (listForm s).
Proof. repeat split. Qed.

Lemma lists_step_inv (e : Event) (r r' : Run) :
  in_flight_iff_processing r -> step e r = Some r' ->
  in_flight_iff_processing r'.
Proof.
  unfold in_flight_iff_processing. destruct r as [s fl]. intros I H.
  destruct e; simpl in H.
  - injection H as <-. exact I.
  - injection H as <-. destruct open; exact I.
  - injection H as <-. exact I.
  - destruct (isDialogOpen s); [|discriminate]. injection H as <-. exact I.
  - destruct (isDialogOpen s); [|discriminate]. simpl in *.
    destruct (processing (listForm s)) eqn:P; [discriminate|]. simpl in H.
    unfold handleFormSubmit in H.
    destruct (editingList s); injection H as <-; simpl in *;
      rewrite length_app, I; reflexivity.
  - destruct confirmed; simpl in H; injection H as <-; [reflexivity|exact I].
  - simpl in *. destruct (nth_error fl k) as [m|] eqn:N; [|discriminate].
    injection H as <-. simpl.
    destruct (processing (listForm s)).
    + rewrite (TasksPageFacts.drop_only k fl m I N). destruct m; reflexivity.
    + destruct fl; [destruct k|]; discriminate.
  - simpl in *. destruct (nth_error fl k) as [m|] eqn:N; [|discriminate].
    injection H as <-. simpl.
    destruct (processing (listForm s)).
    + rewrite (TasksPageFacts.drop_only k fl m I N). reflexivity.
    + destruct fl; [destruct k|]; discriminate.
Qed.

Lemma lists_run_inv (es : list Event) (r r' : Run) :
  in_flight_iff_processing r -> run es r = Some r' ->
  in_flight_iff_processing r'.
Proof.
  revert r. induction es as [|e es IH]; intros r I H; simpl in H.
  - injection H as <-. exact I.
  - destruct (step e r) as [r1|] eqn:S1; [|discriminate].
    eapply IH; [|exact H]. eapply lists_step_inv; eauto.
Qed.



End ListsPageFacts.

Module PageProperties.
Import Inertia Ui React ReactFacts Examples.

(** C5 (closing a dialog discards the edit target and the form buffer).
    The Tasks dialog is closed by [setIsOpen] alone.  After the pencil
    button of a task and a close, the dialog is closed but the task is
    still the edit target and the form still holds its fields; the New
    Task button then opens the dialog titled "Edit Task" with those
    fields, and its submit is a PUT to that task.  (The Lists dialog does
    discard both, [ListsPageFacts.lists_close_discards].) *)
Theorem tasks_dialog_close_keeps_edit_target :
  let opened := TasksPage.handleEdit report (TasksPage.init page_two) in
  let closed := TasksPage.onOpenChange false opened in
  let reopened := TasksPage.onOpenChange true closed in
  let fields :=
    TasksPage.mkFormData "Write report" "Q3 numbers" "2025-01-31" "1" false in
  TasksPage.isOpen closed = false /\
  TasksPage.editingTask closed = Some report /\
  Inertia.data (TasksPage.form closed) = fields /\
  fields <> TasksPage.empty_form /\
  TasksPage.renderDialog reopened =
    TasksPage.mkDialogView true "Edit Task" fields false "Update" /\
  snd (TasksPage.handleSubmit reopened) = Put "/tasks" 7 fields.
Proof. repeat split. discriminate. Qed.

(** C6 (the submit control is disabled while a mutation is in flight).
    In every state either page reaches from its first render: while the
    form helper is processing the rendered submit control is disabled; a
    mutation is in flight exactly while the helper is processing; at most
    one mutation sent by the dialog is in flight; and the submit control
    acts only when nothing is in flight. *)
Theorem one_mutation_in_flight :
  (forall p es r,
      TasksPage.run es (TasksPage.start_run p) = Some r ->
      (processing (TasksPage.form (TasksPage.page r)) = true ->
       TasksPage.submit_disabled (TasksPage.renderDialog (TasksPage.page r)) = true) /\
      (TasksPage.inflight r <> [] <->
       processing (TasksPage.form (TasksPage.page r)) = true) /\
      (TasksPage.dialog_mutations r <= 1)%nat /\
      (forall r', TasksPage.step TasksPage.Submit r = Some r' ->
                  TasksPage.inflight r = [] /\
                  List.length (TasksPage.inflight r') = 1%nat)) /\
  (forall es r,
      ListsPage.run es ListsPage.start_run = Some r ->
      (processing (ListsPage.listForm (ListsPage.page r)) = true ->
       ListsPage.submit_disabled (ListsPage.renderDialog (ListsPage.page r)) = true) /\
      (ListsPage.inflight r <> [] <->
       processing (ListsPage.listForm (ListsPage.page r)) = true) /\
      (ListsPage.dialog_mutations r <= 1)%nat /\
      (forall r', ListsPage.step ListsPage.Submit r = Some r' ->
                  ListsPage.inflight r = [] /\
                  List.length (ListsPage.inflight r') = 1%nat)).
Proof.
  split.
  - intros p es r H.
    assert (I : TasksPage.in_flight_iff_processing r).
    { eapply TasksPageFacts.tasks_run_inv; [|exact H]. reflexivity. }
    split; [intros P; exact P|].
    unfold TasksPage.in_flight_iff_processing in I.
    split; [|split].
    + destruct (processing (TasksPage.form (TasksPage.page r)));
        destruct (TasksPage.inflight r); simpl in I; split;
          intros; congruence.
    + unfold TasksPage.dialog_mutations.
      pose proof (TasksPageFacts.filter_length_le from_dialog
                    (TasksPage.inflight r)).
      destruct (processing (TasksPage.form (TasksPage.page r))); lia.
    + intros r' S.
      pose proof (TasksPageFacts.tasks_step_inv _ _ _ I S) as I'.
      unfold TasksPage.in_flight_iff_processing in I'.
      simpl in S.
      destruct (TasksPage.isOpen (TasksPage.page r)); [|discriminate].
      destruct (processing (TasksPage.form (TasksPage.page r))) eqn:P;
        [discriminate|]. simpl in S.
      split; [destruct (TasksPage.inflight r); [reflexivity|discriminate]|].
      unfold TasksPage.handleSubmit in S.
      destruct (TasksPage.editingTask (TasksPage.page r));
        injection S as <-; simpl in *; rewrite length_app, I; reflexivity.
  - intros es r H.
    assert (I : ListsPage.in_flight_iff_processing r).
    { eapply ListsPageFacts.lists_run_inv; [|exact H]. reflexivity. }
    split; [intros P; exact P|].
    unfold ListsPage.in_flight_iff_processing in I.
    split; [|split].
    + destruct (processing (ListsPage.listForm (ListsPage.page r)));
        destruct (ListsPage.inflight r); simpl in I; split;
          intros; congruence.
    + unfold ListsPage.dialog_mutations.
      pose proof (TasksPageFacts.filter_length_le from_dialog
                    (ListsPage.inflight r)).
      destruct (processing (ListsPage.listForm (ListsPage.page r))); lia.
    + intros r' S. simpl in S.
      destruct (ListsPage.isDialogOpen (ListsPage.page r)); [|discriminate].
      destruct (processing (ListsPage.listForm (ListsPage.page r))) eqn:P;
        [discriminate|]. simpl in S.
      split; [destruct (ListsPage.inflight r); [reflexivity|discriminate]|].
      unfold ListsPage.handleFormSubmit in S.
      destruct (ListsPage.editingList (ListsPage.page r));
        injection S as <-; simpl in *; rewrite length_app, I; reflexivity.
Qed.

Lemma one_mutation_in_flight_witness :
  (exists r,
      TasksPage.run [TasksPage.Trigger; TasksPage.Change draft; TasksPage.Submit]
        (TasksPage.start_run page_two) = Some r /\
      TasksPage.inflight r = [Post "/tasks" draft] /\
      TasksPage.step TasksPage.Submit r = None /\
      (TasksPage.dialog_mutations r <= 1)%nat) /\
  (exists r,
      ListsPage.run [ListsPage.AddList; ListsPage.Change list_draft;
                     ListsPage.Submit]
        ListsPage.start_run = Some r /\
      ListsPage.inflight r = [Post "/lists" list_draft] /\
      ListsPage.step ListsPage.Submit r = None /\
      (ListsPage.dialog_mutations r <= 1)%nat).
Proof.
  split.
  - eexists. split; [reflexivity|]. split; [reflexivity|].
    split; [reflexivity|].
    exact (proj1 (proj2 (proj2
             (proj1 one_mutation_in_flight page_two
                [TasksPage.Trigger; TasksPage.Change draft; TasksPage.Submit]
                _ eq_refl)))).
  - eexists. split; [reflexivity|]. split; [reflexivity|].
    split; [reflexivity|].
    exact (proj1 (proj2 (proj2
             (proj2 one_mutation_in_flight
                [ListsPage.AddList; ListsPage.Change list_draft;
                 ListsPage.Submit]
                _ eq_refl)))).
Defined.

(** C7 (the toast's 3000 ms timer and its cancellation).
    On both pages, in every state reached from the first render by new
    flash props (on the Lists page also by clicks on a list), by the
    passing of time and by the unmount: a timeout is pending only while
    the component is mounted and the toast visible; an event that makes
    the toast visible starts a timeout due exactly 3000 ms later, and
    with no further event the toast is visible for every [d < 3000] ms
    and hidden from 3000 ms on; the unmount clears the timeout, and
    afterwards no amount of time changes the component's cells. *)
Theorem toast_hidden_after_3000_ms :
  (forall now p es,
      auto_dismiss TasksPage.autoHide TasksPage.showToast
        TasksPage.toast_step 3000
        (TasksPage.after es (TasksPage.first_render now p))) /\
  (forall now es,
      auto_dismiss ListsPage.autoHide
        (fun s => ListsPage.show (ListsPage.toast s))
        ListsPage.toast_step 3000
        (ListsPage.after es (ListsPage.first_render now))).
Proof.
  split.
  - intros now p es.
    apply TasksPageFacts.tasks_auto_dismiss,
      TasksPageFacts.tasks_after_well_timed.
    apply mount_well_timed;
      auto using TasksPageFacts.tasks_autoHide_on,
        TasksPageFacts.tasks_autoHide_off. lia.
  - intros now es.
    apply ListsPageFacts.lists_auto_dismiss,
      ListsPageFacts.lists_after_well_timed.
    apply mount_well_timed;
      auto using ListsPageFacts.lists_autoHide_on,
        ListsPageFacts.lists_autoHide_off. lia.
Qed.

Lemma toast_hidden_after_3000_ms_witness :
  let c := TasksPage.first_render 0 page_two in
  let c' := TasksPage.toast_step (TasksPage.NewFlash both_flashes) c in
  TasksPage.showToast (cells c) = false /\
  TasksPage.showToast (cells c') = true /\
  (exists callback, timer c' = Some ((clock c' + 3000)%nat, callback)) /\
  TasksPage.showToast (cells (elapse TasksPage.autoHide 2999 c')) = true /\
  TasksPage.showToast (cells (elapse TasksPage.autoHide 3000 c')) = false.
Proof.
  intros c c'.
  destruct (proj1 toast_hidden_after_3000_ms 0%nat page_two [])
    as (_ & Hshown & _).
  destruct (Hshown (TasksPage.NewFlash both_flashes) eq_refl eq_refl)
    as [Hdue Hgone].
  split; [reflexivity|]. split; [reflexivity|]. split; [exact Hdue|].
  split; [exact (Hgone 2999%nat)|exact (Hgone 3000%nat)].
Defined.

(** The timer on a concrete run of the Tasks page: a success flash at
    time 0 shows the toast; it is still there after 2999 ms and gone
    after 3000 ms; a second flash after 1000 ms replaces the text and
    does not move the deadline; an unmount after 1000 ms leaves no
    timeout behind. *)
Example toast_timeline :
  let shown :=
    TasksPage.after [TasksPage.NewFlash both_flashes]
      (TasksPage.first_render 0 page_two) in
  let second := Some (Http.mkFlash None (Some "Could not delete")) in
  TasksPage.renderToast (cells shown) = Some (ToastSuccess, "Task saved") /\
  TasksPage.renderToast (cells (TasksPage.after [TasksPage.Elapse 2999] shown))
    = Some (ToastSuccess, "Task saved") /\
  TasksPage.renderToast (cells (TasksPage.after [TasksPage.Elapse 3000] shown))
    = None /\
  TasksPage.renderToast
    (cells (TasksPage.after [TasksPage.Elapse 1000; TasksPage.NewFlash second;
                             TasksPage.Elapse 1999] shown))
    = Some (ToastError, "Could not delete") /\
  TasksPage.renderToast
    (cells (TasksPage.after [TasksPage.Elapse 1000; TasksPage.NewFlash second;
                             TasksPage.Elapse 2000] shown))
    = None /\
  timer (TasksPage.after [TasksPage.Elapse 1000; TasksPage.Unmount] shown) = None.
Proof. vm_compute. repeat split. Qed.

(** C8, as stated, fails: on page 2 of the results, the request of a
    search submit and the request of a status selection carry no page at
    all, so not the current one. *)
Lemma search_request_carries_no_page :
  let s := TasksPage.state page_two_view in
  TasksPage.current_page (TasksPage.tasks (TasksPage.props page_two_view)) = 2 /\
  TasksPage.q_page (TasksPage.handleSearch s) = None /\
  TasksPage.q_page (snd (TasksPage.handleFilterChange TasksPage.completed s)) = None /\
  TasksPage.q_page (TasksPage.handleSearch s) <>
    Some (TasksPage.current_page (TasksPage.tasks (TasksPage.props page_two_view))).
Proof. repeat split. discriminate. Qed.

(** C8, amended (the requests of the search, filter and page controls).
    A search submit and a status selection request [/tasks] with the
    current search text and the status (the newly selected one on a
    selection) and with no page; a page control requests the full
    [{page, search, filter}].  All three ask to preserve state and
    scroll.  When the response arrives the props (the displayed page and
    its pagination envelope with them) are the server's, the scroll
    position is unchanged, and the cells are those before the response
    with the effect on [flash] applied, which leaves the dialog, the
    edit target, the search text, the status and the form as they
    were. *)
Theorem list_requests_preserve_view
        (w : TasksPage.View) (value : TasksPage.Filter) (page : Z)
        (response : TasksPage.Props) :
  let s := TasksPage.state w in
  let sent_by_search := TasksPage.handleSearch s in
  let sent_by_filter := snd (TasksPage.handleFilterChange value s) in
  let sent_by_page := TasksPage.handlePageChange page s in
  let s_filter := fst (TasksPage.handleFilterChange value s) in
  sent_by_search =
    TasksPage.mkVisit "/tasks" None (TasksPage.searchTerm s)
      (TasksPage.completionFilter s) true true /\
  sent_by_filter =
    TasksPage.mkVisit "/tasks" None (TasksPage.searchTerm s) value true true /\
  sent_by_page =
    TasksPage.mkVisit "/tasks" (Some page) (TasksPage.searchTerm s)
      (TasksPage.completionFilter s) true true /\
  s_filter = TasksPage.setCompletionFilter value s /\
  TasksPage.receive sent_by_search response w =
    TasksPage.mkView response
      (TasksPage.flashEffect (TasksPage.flash response) s)
      (TasksPage.scrollY w) /\
  TasksPage.receive sent_by_filter response
      (TasksPage.mkView (TasksPage.props w) s_filter (TasksPage.scrollY w)) =
    TasksPage.mkView response
      (TasksPage.flashEffect (TasksPage.flash response) s_filter)
      (TasksPage.scrollY w) /\
  TasksPage.receive sent_by_page response w =
    TasksPage.mkView response
      (TasksPage.flashEffect (TasksPage.flash response) s)
      (TasksPage.scrollY w) /\
  (let s' := TasksPage.flashEffect (TasksPage.flash response) s in
   TasksPage.isOpen s' = TasksPage.isOpen s /\
   TasksPage.editingTask s' = TasksPage.editingTask s /\
   TasksPage.searchTerm s' = TasksPage.searchTerm s /\
   TasksPage.completionFilter s' = TasksPage.completionFilter s /\
   TasksPage.form s' = TasksPage.form s) /\
  (let s' := TasksPage.flashEffect (TasksPage.flash response) s_filter in
   TasksPage.isOpen s' = TasksPage.isOpen s /\
   TasksPage.editingTask s' = TasksPage.editingTask s /\
   TasksPage.searchTerm s' = TasksPage.searchTerm s /\
   TasksPage.completionFilter s' = value /\
   TasksPage.form s' = TasksPage.form s).
Proof.
  cbv zeta. repeat split;
    try apply (TasksPageFacts.tasks_flashEffect_frame
                 (TasksPage.flash response) (TasksPage.state w));
    apply (TasksPageFacts.tasks_flashEffect_frame
             (TasksPage.flash response)
             (TasksPage.setCompletionFilter value (TasksPage.state w))).
Qed.

(** C10 (a response with both flash messages shows the success one).
    When the [flash] prop carries a non-empty success and a non-empty
    error message, the effect on [flash] of either page leaves a visible
    toast of type success whose text is the success message; the page
    renders that toast and no other. *)
Theorem success_flash_wins
        (fl : option Http.Flash) (ok err : string) :
  flash_success fl = Some ok -> ok <> "" ->
  flash_error fl = Some err -> err <> "" ->
  (forall s,
      TasksPage.renderToast (TasksPage.flashEffect fl s) =
        Some (ToastSuccess, ok)) /\
  (forall s,
      ListsPage.renderToast (ListsPage.flashEffect fl s) =
        Some (ToastSuccess, ok)).
Proof.
  intros Hs Hok He Herr.
  assert (T : truthy (flash_success fl) = true).
  { rewrite Hs. simpl. apply negb_true_iff, String.eqb_neq. exact Hok. }
  split; intros s.
  - unfold TasksPage.flashEffect. rewrite T, Hs. reflexivity.
  - unfold ListsPage.flashEffect. rewrite T, Hs. reflexivity.
Qed.

Lemma success_flash_wins_witness :
  TasksPage.renderToast
    (TasksPage.flashEffect both_flashes (TasksPage.init page_two)) =
    Some (ToastSuccess, "Task saved") /\
  ListsPage.renderToast (ListsPage.flashEffect both_flashes ListsPage.init) =
    Some (ToastSuccess, "Task saved").
Proof.
  assert (H1 : "Task saved" <> "") by discriminate.
  assert (H2 : "Something failed" <> "") by discriminate.
  pose proof (success_flash_wins both_flashes "Task saved" "Something failed"
                eq_refl H1 eq_refl H2) as [HT HL].
  split; [apply HT|apply HL].
Defined.

End PageProperties.

(* ===================================================================== *)
(** * Further properties of the controllers *)
(* ===================================================================== *)

Module ListControllerMore.
Import Php Validation Models Http ListController Conditions Examples.
Import ListControllerFacts ValidationFacts.

Lemma option_string_eqb_eq (a b : option string) :
  option_string_eqb a b = true -> a = b.
Proof.
  destruct a, b; simpl; try discriminate; try reflexivity.
  intros H. apply String.eqb_eq in H. congruence.
Qed.

Lemma TaskList_eqb_eq (a b : TaskList) : TaskList_eqb a b = true -> a = b.
Proof.
  unfold TaskList_eqb. intros H.
  repeat (apply andb_true_iff in H as [H ?]).
  destruct a, b; simpl in *.
  repeat match goal with
         | E : (_ =? _) = true |- _ => apply Z.eqb_eq in E
         | E : String.eqb _ _ = true |- _ => apply String.eqb_eq in E
         | E : option_string_eqb _ _ = true |- _ => apply option_string_eqb_eq in E
         end.
  congruence.
Qed.

Lemma resolve_none (key : Z) (tbl : Table) :
  resolve key tbl = None <-> forall l, In l tbl -> id l <> key.
Proof.
  unfold resolve. split.
  - intros H l Hin E. pose proof (find_none _ _ H l Hin) as N.
    simpl in N. rewrite E, Z.eqb_refl in N. discriminate.
  - intros H. destruct (find _ tbl) as [l|] eqn:F; [|reflexivity].
    apply find_some in F as [Hin E]. apply Z.eqb_eq in E.
    exfalso. exact (H l Hin E).
Qed.

Lemma destroy_rows (auth key : Z) (tbl : Table) (l : TaskList) :
  In l (fst (destroy auth key tbl)) <-> In l tbl /\ id l <> key.
Proof.
  unfold destroy. destruct (resolve key tbl) as [l0|] eqn:R; simpl.
  - apply resolve_id in R as [E _]. rewrite filter_In, negb_true_iff, E.
    rewrite Z.eqb_neq. reflexivity.
  - split; [|tauto]. intros Hin. split; [exact Hin|].
    exact (proj1 (resolve_none key tbl) R l Hin).
Qed.

(** X1.  Once [destroy] has run for a key, no row has that key: a later
    [update] or [destroy] of the key, by anyone, answers NotFound and
    leaves the table as it is; the rows that remain are exactly the rows
    with another key. *)
Theorem destroyed_key_is_not_found
        (auth auth' now key : Z) (r : Request) (tbl : Table) :
  let tbl' := fst (destroy auth key tbl) in
  resolve key tbl' = None /\
  update auth' now key r tbl' = (tbl', NotFound) /\
  destroy auth' key tbl' = (tbl', NotFound) /\
  (forall l, In l tbl' <-> In l tbl /\ id l <> key) /\
  (forall who l, In l (index who tbl') -> id l <> key).
Proof.
  intros tbl'.
  assert (N : resolve key tbl' = None).
  { apply resolve_none. intros l Hin. apply destroy_rows in Hin. tauto. }
  split; [exact N|].
  unfold update, destroy at 1. rewrite N.
  split; [reflexivity|]. split; [reflexivity|]. split.
  - intros l. apply destroy_rows.
  - intros who l Hin. apply index_scoped in Hin as [Hin _].
    apply destroy_rows in Hin. tauto.
Qed.

Lemma index_app (who : Z) (a b : Table) :
  index who (a ++ b)%list = (index who a ++ index who b)%list.
Proof. unfold index. apply filter_app. Qed.

(** X2.  [store] is invisible to every other user: their [index] is what
    it was.  The caller's [index] gains the new list at its end when the
    request is accepted and is unchanged when it is rejected; no stored
    row is lost or altered either way. *)
Theorem store_adds_to_the_callers_index_only
        (auth now : Z) (r : Request) (tbl : Table) :
  let tbl' := fst (store auth now r tbl) in
  (forall other, other <> auth -> index other tbl' = index other tbl) /\
  (exists added,
      index auth tbl' = (index auth tbl ++ added)%list /\
      tbl' = (tbl ++ added)%list /\
      List.length added =
      if title_accepted (in_title r) && description_accepted (in_description r)
      then 1%nat else 0%nat).
Proof.
  intros tbl'. subst tbl'. unfold store.
  destruct (title_accepted (in_title r) && description_accepted (in_description r))
    eqn:A.
  - destruct (validate_accepts r A) as (s & _ & ->). simpl. split.
    + intros other Hne. rewrite index_app. simpl.
      destruct (Z.eqb_spec auth other); [congruence|].
      apply app_nil_r.
    + eexists [_]. rewrite index_app. simpl.
      rewrite Z.eqb_refl. auto.
  - destruct (validate_rejects r A) as (es & -> & _). simpl.
    split; [reflexivity|].
    exists []. rewrite !app_nil_r. auto.
Qed.

Lemma store_adds_to_the_callers_index_only_witness :
  index bob (fst (store alice 200 groceries_request [bobs_list])) = [bobs_list] /\
  index alice (fst (store alice 200 groceries_request [bobs_list])) =
    [mkTaskList 2 "Groceries" None alice 200 200].
Proof.
  destruct (store_adds_to_the_callers_index_only alice 200 groceries_request
              [bobs_list]) as [Hother _].
  split; [|reflexivity].
  rewrite (Hother bob); [reflexivity|discriminate].
Defined.

Lemma NoDup_map_filter {A B : Type} (f : A -> B) (p : A -> bool) (l : list A) :
  NoDup (map f l) -> NoDup (map f (List.filter p l)).
Proof.
  induction l as [|x l IH]; simpl; intros H; [constructor|].
  inversion H as [|? ? Hx Hl]; subst.
  destruct (p x); simpl; [|auto].
  constructor; [|auto]. intros Hin. apply Hx.
  apply in_map_iff in Hin as (y & E & Hy). apply filter_In in Hy as [Hy _].
  apply in_map_iff. eauto.
Qed.

Lemma replace_row_keys (new : TaskList) (tbl : Table) :
  map id (replace_row new tbl) = map id tbl.
Proof.
  unfold replace_row. induction tbl as [|x tbl IH]; simpl; [reflexivity|].
  rewrite IH. destruct (Z.eqb_spec (id x) (id new)); congruence.
Qed.

Lemma save_key (now : Z) (old new : TaskList) :
  id old = id new -> id (save now old new) = id old.
Proof. intros E. unfold save. destruct (TaskList_eqb old new); simpl; auto. Qed.

Lemma fill_key (auth : Z) (v : Validated) (l : TaskList) :
  id (fill auth v l) = id l.
Proof. unfold fill. destruct (v_description v); reflexivity. Qed.

(** X3.  The keys of the table stay pairwise distinct under [store],
    [update] and [destroy]; [update] does not even change the sequence
    of keys. *)
Theorem keys_stay_distinct
        (auth now key : Z) (r : Request) (tbl : Table) :
  NoDup (map id tbl) ->
  NoDup (map id (fst (store auth now r tbl))) /\
  map id (fst (update auth now key r tbl)) = map id tbl /\
  NoDup (map id (fst (destroy auth key tbl))).
Proof.
  intros ND. split; [|split].
  - unfold store. destruct (validate r) as [es|v]; simpl; [exact ND|].
    rewrite map_app. simpl.
    apply NoDup_app_remove_l with (l := []). simpl.
    apply Permutation_NoDup with (l := next_id tbl :: map id tbl).
    + apply Permutation_cons_append.
    + constructor; [|exact ND].
      intros Hin. apply in_map_iff in Hin as (l & E & Hin).
      apply next_id_above in Hin. lia.
  - unfold update. destruct (resolve key tbl) as [l|]; [|reflexivity].
    destruct (validate r) as [es|v]; [reflexivity|]. simpl.
    apply replace_row_keys.
  - unfold destroy. destruct (resolve key tbl) as [l|]; simpl; [|exact ND].
    apply NoDup_map_filter, ND.
Qed.

Lemma keys_stay_distinct_witness :
  NoDup (map id (fst (store alice 200 groceries_request [chores]))) /\
  map id (fst (update alice 200 1 groceries_request [chores])) = [1] /\
  NoDup (map id (fst (destroy alice 1 [chores]))).
Proof.
  apply (keys_stay_distinct alice 200 1).
  simpl. constructor; [intros []|constructor].
Defined.

(** X4.  On a stored key, [update] accepts exactly the requests [store]
    accepts: when [store] answers with validation errors, [update]
    answers with the same errors and leaves the table as it is;
    otherwise it answers with its success redirect. *)
Theorem update_validates_like_store
        (auth now key : Z) (r : Request) (tbl : Table) (l : TaskList) :
  resolve key tbl = Some l ->
  match snd (store auth now r tbl) with
  | Invalid es => update auth now key r tbl = (tbl, Invalid es)
  | _ =>
      title_accepted (in_title r) && description_accepted (in_description r)
        = true /\
      snd (update auth now key r tbl) =
        Redirect "lists.index" (mkFlash (Some "List updated successfully") None)
  end.
Proof.
  intros R. unfold store, update. rewrite R.
  destruct (validate r) as [es|v] eqn:V; simpl; [reflexivity|].
  split; [|reflexivity].
  destruct (title_accepted (in_title r) && description_accepted (in_description r))
    eqn:A; [reflexivity|].
  destruct (validate_rejects r A) as (es & V' & _). congruence.
Qed.

Lemma update_validates_like_store_witness :
  update alice 200 1 blank_title_request [chores] =
    ([chores], Invalid [("title", [Required])]).
Proof.
  exact (update_validates_like_store alice 200 1 blank_title_request [chores]
           chores eq_refl).
Defined.

(** X5.  What an accepted [update] writes on the row of the key: the
    title sent; the description sent, or the stored one when none was
    sent, or none when [null] was sent; the caller as owner; the key and
    the creation time as they were.  Either nothing changed at all, or
    [updated_at] is the time of the update.  Every other row is as it
    was. *)
Theorem update_writes_the_sent_fields
        (auth now key : Z) (r : Request) (tbl : Table) (old : TaskList) :
  resolve key tbl = Some old ->
  title_accepted (in_title r) && description_accepted (in_description r) = true ->
  exists new,
    update auth now key r tbl =
      (map (fun l => if id l =? key then new else l) tbl,
       Redirect "lists.index" (mkFlash (Some "List updated successfully") None)) /\
    in_title r = Some (VStr (title new)) /\
    description new =
      match in_description r with
      | None => description old
      | Some (VStr s) => Some s
      | Some _ => None
      end /\
    user_id new = auth /\ id new = key /\ created_at new = created_at old /\
    (new = old \/ updated_at new = now).
Proof.
  intros R A. destruct (validate_accepts r A) as (s & Ht & V).
  pose proof (resolve_id _ _ _ R) as [K _].
  unfold update. rewrite R, V.
  set (filled := fill auth _ old).
  assert (F : title filled = s /\
              description filled =
                match in_description r with
                | None => description old
                | Some (VStr d) => Some d
                | Some _ => None
                end /\
              user_id filled = auth /\ id filled = key /\
              created_at filled = created_at old).
  { subst filled. unfold fill. simpl.
    destruct (in_description r) as [[|b|z|d]|]; simpl; auto. }
  destruct F as (F1 & F2 & F3 & F4 & F5). clearbody filled.
  exists (save now old filled). split.
  - unfold replace_row. rewrite save_key by congruence. rewrite K. reflexivity.
  - unfold save. destruct (TaskList_eqb old filled) eqn:E.
    + apply TaskList_eqb_eq in E. rewrite <- E in F1, F2, F3, F4, F5.
      repeat split; auto; congruence.
    + simpl. repeat split; auto; congruence.
Qed.

Lemma update_writes_the_sent_fields_witness :
  exists new,
    update alice 200 1 groceries_request [chores] =
      ([new],
       Redirect "lists.index" (mkFlash (Some "List updated successfully") None)) /\
    title new = "Groceries" /\ description new = description chores /\
    updated_at new = 200.
Proof.
  destruct (update_writes_the_sent_fields alice 200 1 groceries_request
              [chores] chores eq_refl eq_refl)
    as (new & U & T & D & _ & _ & _ & _).
  exists new. split; [exact U|].
  simpl in T. injection T as T.
  split; [symmetry; exact T|]. split; [exact D|].
  simpl in U. injection U as U. rewrite <- U. reflexivity.
Defined.

End ListControllerMore.

Module DashboardMore.
Import Php Validation Models Http Conditions Examples.
Import DashboardController DashboardFacts ValidationFacts.

Section OrderByMore.
Context {A : Type} (updated created : A -> Z).

Lemma ordered_before_spec (a b : A) :
  ordered_before updated created a b <->
  updated b < updated a \/ (updated b = updated a /\ created b <= created a).
Proof.
  unfold ordered_before, row_before, before.
  rewrite orb_true_iff, andb_true_iff, Z.ltb_lt, Z.eqb_eq, Z.leb_le.
  reflexivity.
Qed.

Lemma ordered_before_trans (a b c : A) :
  ordered_before updated created a b -> ordered_before updated created b c ->
  ordered_before updated created a c.
Proof. rewrite !ordered_before_spec. lia. Qed.

(** The ordered rows: each one stands before all the rows after it. *)
Lemma orderBy_strongly_sorted (l : list A) :
  StronglySorted (ordered_before updated created) (orderBy updated created l).
Proof.
  apply Sorted_StronglySorted.
  - intros a b c. apply ordered_before_trans.
  - apply orderBy_sorted.
Qed.

(** A row newer than every row of [l], appended to [l], comes first. *)
Lemma orderBy_newest_last (l : list A) (x : A) :
  (forall y, In y l -> updated y < updated x) ->
  orderBy updated created (l ++ [x]) = x :: orderBy updated created l.
Proof.
  intros H. unfold orderBy. rewrite fold_right_app. simpl.
  induction l as [|y l IH]; simpl; [reflexivity|].
  rewrite IH by (intros z Hz; apply H; right; exact Hz).
  simpl. unfold row_before, before.
  assert (Hy : updated y < updated x) by (apply H; left; reflexivity).
  destruct (Z.ltb_spec (updated x) (updated y)); [lia|].
  destruct (Z.eqb_spec (updated x) (updated y)); [lia|]. reflexivity.
Qed.

End OrderByMore.

(** X6.  The dashboard lists exactly the lists [GET /lists] gives the
    same user, rearranged so that each list stands before every list
    updated earlier (created earlier, on equal update times);
    [totalLists] is their number. *)
Theorem dashboard_lists_are_the_indexed_lists
        (auth : Z) (session : Flash) (ls : list TaskList) (ts : list Task) :
  let p := index auth session ls ts in
  Permutation (ListController.index auth ls) (lists p) /\
  StronglySorted (ordered_before updated_at created_at) (lists p) /\
  totalLists (stats p) = List.length (ListController.index auth ls) /\
  flash p = session.
Proof.
  simpl. split; [apply orderBy_perm|]. split; [apply orderBy_strongly_sorted|].
  split; [|reflexivity].
  symmetry. apply Permutation_length, orderBy_perm.
Qed.

Lemma owned_task_spec (auth : Z) (ls : list TaskList) (t : Task) :
  owned_task auth ls t = true <->
  exists l, In l ls /\ id l = lists_id t /\ user_id l = auth.
Proof.
  unfold owned_task. rewrite existsb_exists. split.
  - intros (l & Hin & H). apply andb_true_iff in H as [H1 H2].
    apply Z.eqb_eq in H1, H2. eauto.
  - intros (l & Hin & H1 & H2). exists l. split; [exact Hin|].
    rewrite H1, H2, !Z.eqb_refl. reflexivity.
Qed.

(** X7.  The dashboard shows a stored task exactly when the list it
    points to exists and belongs to the user: tasks of other users' lists
    and tasks whose list is gone never appear.  The tasks come most
    recently updated first, and [totalTasks] is their number. *)
Theorem dashboard_tasks_are_the_callers
        (auth : Z) (session : Flash) (ls : list TaskList) (ts : list Task) :
  let p := index auth session ls ts in
  (forall t, In t (tasks p) <->
             In t ts /\
             exists l, In l ls /\ id l = lists_id t /\ user_id l = auth) /\
  StronglySorted (ordered_before task_updated_at task_created_at) (tasks p) /\
  totalTasks (stats p) = List.length (tasks p).
Proof.
  simpl. split; [|split; [apply orderBy_strongly_sorted|reflexivity]].
  intros t. rewrite <- owned_task_spec, <- filter_In.
  split; apply Permutation_in; [symmetry|]; apply orderBy_perm.
Qed.

(** X8.  The dashboard counters add up whatever the column holds:
    a task counts as completed when its [is_completed] is truthy ([true],
    a non-zero number, a string other than [""] and ["0"]) and as pending
    otherwise ([false], [0], [null]), so
    [completedTasks + pendingTasks = totalTasks] always. *)
Theorem dashboard_counters_add_up
        (auth : Z) (session : Flash) (ls : list TaskList) (ts : list Task) :
  let p := index auth session ls ts in
  completedTasks (stats p) =
    List.length (filter (fun t => truthy (is_completed t)) (tasks p)) /\
  pendingTasks (stats p) =
    List.length (filter (fun t => negb (truthy (is_completed t))) (tasks p)) /\
  (completedTasks (stats p) + pendingTasks (stats p) = totalTasks (stats p))%nat.
Proof.
  simpl.
  set (all := orderBy task_updated_at task_created_at _).
  assert (E1 : where_is_completed true all =
               filter (fun t => truthy (is_completed t)) all).
  { unfold where_is_completed. apply filter_ext. intros t.
    unfold loose_eq_bool. destruct (truthy (is_completed t)); reflexivity. }
  assert (E2 : where_is_completed false all =
               filter (fun t => negb (truthy (is_completed t))) all).
  { unfold where_is_completed. apply filter_ext. intros t.
    unfold loose_eq_bool. destruct (truthy (is_completed t)); reflexivity. }
  split; [rewrite E1; reflexivity|]. split; [rewrite E2; reflexivity|].
  rewrite <- length_app. symmetry. apply Permutation_length, where_split.
Qed.

(** X9.  A list created later than every update of the user's stored
    lists heads that user's dashboard, the lists shown before following
    in their order. *)
Theorem new_list_heads_the_dashboard
        (auth now : Z) (session : Flash) (r : ListController.Request)
        (tbl : ListController.Table) (ts : list Task) :
  title_accepted (ListController.in_title r) &&
    description_accepted (ListController.in_description r) = true ->
  (forall l, In l tbl -> user_id l = auth -> updated_at l < now) ->
  exists row,
    fst (ListController.store auth now r tbl) = (tbl ++ [row])%list /\
    ListController.in_title r = Some (VStr (title row)) /\
    lists (index auth session (tbl ++ [row])%list ts) =
      row :: lists (index auth session tbl ts).
Proof.
  intros A Hnow. destruct (validate_accepts r A) as (s & Ht & V).
  unfold ListController.store. rewrite V. simpl.
  eexists. split; [reflexivity|]. split; [exact Ht|].
  rewrite filter_app. simpl. rewrite Z.eqb_refl.
  apply orderBy_newest_last. simpl.
  intros y Hy. apply filter_In in Hy as [Hy Hu]. apply Z.eqb_eq in Hu. auto.
Qed.

Lemma new_list_heads_the_dashboard_witness :
  exists row,
    title row = "Groceries" /\
    lists (index alice no_flash ([chores] ++ [row])%list []) = [row; chores].
Proof.
  assert (H : forall l, In l [chores] -> user_id l = alice -> updated_at l < 200).
  { intros l [<-|[]] _. reflexivity. }
  destruct (new_list_heads_the_dashboard alice 200 no_flash groceries_request
              [chores] [] eq_refl H) as (row & _ & T & L).
  exists row. simpl in T. injection T as T. split; [symmetry; exact T|exact L].
Defined.

End DashboardMore.

(* ===================================================================== *)
(** * Further properties of the client pages *)
(* ===================================================================== *)

Module PaginationFacts.
Import TasksPage TasksPagination Examples.

Lemma page_numbers_spec (p : Paginated) (n : Z) :
  In n (page_numbers p) <-> 1 <= n <= last_page p.
Proof.
  unfold page_numbers. rewrite in_map_iff. split.
  - intros (i & <- & Hi). apply in_seq in Hi. lia.
  - intros H. exists (Z.to_nat (n - 1)). split; [lia|].
    apply in_seq. lia.
Qed.

Lemma requests_spec (s : State) (p : Paginated) (v : Visit) :
  In v (requests s p) <->
  exists c, In c (controls p) /\ disabled c = false /\
            v = handlePageChange (target c) s.
Proof.
  unfold requests. rewrite in_map_iff. split.
  - intros (c & <- & Hc). apply filter_In in Hc as [Hc Hd].
    apply negb_true_iff in Hd. eauto.
  - intros (c & Hc & Hd & ->). exists c. split; [reflexivity|].
    apply filter_In. rewrite Hd. auto.
Qed.

Lemma controls_spec (p : Paginated) (c : Control) :
  In c (controls p) <->
  c = mkControl (current_page p - 1) (current_page p =? 1) false \/
  (exists n, 1 <= n <= last_page p /\
             c = mkControl n false (n =? current_page p)) \/
  c = mkControl (current_page p + 1) (current_page p =? last_page p) false.
Proof.
  unfold controls. simpl. rewrite in_app_iff, in_map_iff. simpl.
  split.
  - intros [H|[(n & H & Hn)|[H|[]]]]; auto.
    right. left. exists n. apply page_numbers_spec in Hn. auto.
  - intros [H|[(n & Hn & H)|H]]; auto.
    right. left. exists n. apply page_numbers_spec in Hn. auto.
Qed.

(** X10.  While the current page lies between 1 and the last page, every
    visit the pagination controls can start asks for a page between 1
    and the last page, with the current search text and status; every
    page in that range can be asked for; and only the button of the
    current page is highlighted. *)
Theorem page_controls_stay_in_range (s : State) (p : Paginated) :
  1 <= current_page p <= last_page p ->
  (forall v, In v (requests s p) ->
     exists n, 1 <= n <= last_page p /\
               v = mkVisit "/tasks" (Some n) (searchTerm s)
                     (completionFilter s) true true) /\
  (forall n, 1 <= n <= last_page p ->
     In (handlePageChange n s) (requests s p)) /\
  (forall c, In c (controls p) -> highlighted c = true ->
     target c = current_page p /\ disabled c = false).
Proof.
  intros R. split; [|split].
  - intros v Hv. apply requests_spec in Hv as (c & Hc & Hd & ->).
    apply controls_spec in Hc as [-> | [(n & Hn & ->) | ->]]; simpl in *.
    + apply Z.eqb_neq in Hd. exists (current_page p - 1).
      split; [lia|reflexivity].
    + exists n. split; [lia|reflexivity].
    + apply Z.eqb_neq in Hd. exists (current_page p + 1).
      split; [lia|reflexivity].
  - intros n Hn. apply requests_spec.
    exists (mkControl n false (n =? current_page p)).
    split; [|split; reflexivity].
    apply controls_spec. right. left. exists n. auto.
  - intros c Hc Hh.
    apply controls_spec in Hc as [-> | [(n & Hn & ->) | ->]]; simpl in *;
      try discriminate.
    apply Z.eqb_eq in Hh. auto.
Qed.

Lemma page_controls_stay_in_range_witness :
  In (handlePageChange 3 (init page_two)) (requests (init page_two) (tasks page_two)) /\
  ~ In (handlePageChange 4 (init page_two)) (requests (init page_two) (tasks page_two)).
Proof.
  assert (R : 1 <= current_page (tasks page_two) <= last_page (tasks page_two))
    by (simpl; lia).
  destruct (page_controls_stay_in_range (init page_two) (tasks page_two) R)
    as (Hin & Hall & _).
  split.
  - apply Hall. simpl. lia.
  - intros H. apply Hin in H as (n & Hn & E). simpl in Hn.
    unfold handlePageChange in E. injection E as E. lia.
Defined.

(** X11.  The next button is disabled only on the last page itself: when
    the server reports a current page beyond the last page, the next
    button is enabled and asks for the page after the current one, past
    the last page; the previous button is disabled only on page 1. *)
Theorem next_button_past_the_last_page (s : State) (p : Paginated) :
  last_page p < current_page p ->
  In (handlePageChange (current_page p + 1) s) (requests s p) /\
  (current_page p <> 1 ->
   In (handlePageChange (current_page p - 1) s) (requests s p)).
Proof.
  intros H. split.
  - apply requests_spec.
    exists (mkControl (current_page p + 1) (current_page p =? last_page p) false).
    split; [apply controls_spec; auto|]. simpl.
    split; [apply Z.eqb_neq; lia|reflexivity].
  - intros H1. apply requests_spec.
    exists (mkControl (current_page p - 1) (current_page p =? 1) false).
    split; [apply controls_spec; auto|]. simpl.
    split; [apply Z.eqb_neq; lia|reflexivity].
Qed.

Lemma next_button_past_the_last_page_witness :
  In (handlePageChange 100 (init page_two))
     (requests (init page_two) (mkPaginated [] 99 3 15 31 0 0)).
Proof.
  apply (next_button_past_the_last_page (init page_two)
           (mkPaginated [] 99 3 15 31 0 0)).
  simpl. lia.
Defined.

End PaginationFacts.

Module ReactMore.
Import React ReactFacts.

Section KeptDeadline.
Context {S : Type} (eff : Effect S) (delay : nat) (hide : S -> S).
Hypothesis body_off : forall s, dep eff s = false -> body eff s = None.
Hypothesis hide_off : forall s, dep eff (hide s) = false.

(** A state update that leaves the dependency on does not touch the
    pending timeout: the toast is hidden at the deadline it had. *)
Lemma update_keeps_deadline (f : S -> S) (c : Component S) :
  well_timed eff delay hide c ->
  mounted c = true -> dep eff (cells c) = true ->
  dep eff (f (cells c)) = true ->
  exists t,
    timer c = Some (t, hide) /\ (clock c < t <= clock c + delay)%nat /\
    update eff f c = mkComponent true (f (cells c)) (Some (t, hide)) (clock c) /\
    forall d, dep eff (cells (elapse eff d (update eff f c))) =
              (clock c + d <? t)%nat.
Proof using body_off hide_off.
  intros W M D D'. unfold well_timed in W.
  destruct (timer c) as [[t cb]|] eqn:T.
  - destruct W as (_ & _ & -> & B). exists t.
    split; [reflexivity|]. split; [exact B|].
    assert (U : update eff f c =
                mkComponent true (f (cells c)) (Some (t, hide)) (clock c)).
    { unfold update, render. rewrite M, D, D', T. reflexivity. }
    split; [exact U|]. intros d. rewrite U.
    rewrite (elapse_countdown eff hide body_off hide_off (t - clock c) d);
      simpl; auto; try lia.
    + destruct (Nat.ltb_spec d (t - clock c));
        destruct (Nat.ltb_spec (clock c + d) t); simpl; auto; lia.
    + f_equal. f_equal. lia.
  - rewrite (W M) in D. discriminate.
Qed.

End KeptDeadline.

End ReactMore.

Module ToastFacts.
Import Inertia Ui React ReactFacts ReactMore Examples.

Lemma tasks_flash_keeps_visible (fl : option Http.Flash) (s : TasksPage.State) :
  TasksPage.showToast s = true ->
  TasksPage.showToast (TasksPage.flashEffect fl s) = true.
Proof.
  intros H. unfold TasksPage.flashEffect.
  destruct (truthy (flash_success fl)); [reflexivity|].
  destruct (truthy (flash_error fl)); [reflexivity|exact H].
Qed.

Lemma lists_flash_keeps_visible (fl : option Http.Flash) (s : ListsPage.State) :
  ListsPage.show (ListsPage.toast s) = true ->
  ListsPage.show (ListsPage.toast (ListsPage.flashEffect fl s)) = true.
Proof.
  intros H. unfold ListsPage.flashEffect.
  destruct (truthy (flash_success fl)); [reflexivity|].
  destruct (truthy (flash_error fl)); [reflexivity|exact H].
Qed.

(** X12.  The effect on [flash], on both pages, when the success message
    is missing or empty: a non-empty error message is shown as an error
    toast; with no error message either, every cell is left as it is, so
    a response without a message neither shows nor hides a toast. *)
Theorem flash_without_success (fl : option Http.Flash) :
  truthy (flash_success fl) = false ->
  (truthy (flash_error fl) = true ->
   (forall s, TasksPage.renderToast (TasksPage.flashEffect fl s) =
              Some (ToastError, text (flash_error fl))) /\
   (forall s, ListsPage.renderToast (ListsPage.flashEffect fl s) =
              Some (ToastError, text (flash_error fl)))) /\
  (truthy (flash_error fl) = false ->
   (forall s, TasksPage.flashEffect fl s = s) /\
   (forall s, ListsPage.flashEffect fl s = s)).
Proof.
  intros Hs. unfold TasksPage.flashEffect, ListsPage.flashEffect.
  rewrite Hs. split; intros He; rewrite He; split; reflexivity.
Qed.

Lemma flash_without_success_witness :
  TasksPage.renderToast
    (TasksPage.flashEffect (Some (Http.mkFlash (Some "") (Some "Not saved")))
       (TasksPage.init page_two)) = Some (ToastError, "Not saved") /\
  ListsPage.flashEffect (Some (Http.mkFlash None None)) ListsPage.init =
    ListsPage.init.
Proof.
  split.
  - apply (proj1 (flash_without_success
                    (Some (Http.mkFlash (Some "") (Some "Not saved"))) eq_refl)
             eq_refl).
  - apply (proj2 (flash_without_success (Some (Http.mkFlash None None)) eq_refl)
             eq_refl).
Defined.

(** X13.  A flash message that arrives while a toast is showing replaces
    what the toast says but not when it goes: the pending timeout is the
    same afterwards, and with no further event the toast is visible
    until the deadline it already had and hidden from then on.  On both
    pages, in every state reached from the first render. *)
Theorem second_flash_keeps_the_deadline (fl : option Http.Flash) :
  (forall now p es,
      let c := TasksPage.after es (TasksPage.first_render now p) in
      let c' := TasksPage.toast_step (TasksPage.NewFlash fl) c in
      mounted c = true -> TasksPage.showToast (cells c) = true ->
      exists t,
        (clock c < t <= clock c + 3000)%nat /\
        timer c = Some (t, TasksPage.setShowToast false) /\
        timer c' = timer c /\
        cells c' = TasksPage.flashEffect fl (cells c) /\
        forall d, TasksPage.showToast
                    (cells (elapse TasksPage.autoHide d c')) =
                  (clock c + d <? t)%nat) /\
  (forall now es,
      let c := ListsPage.after es (ListsPage.first_render now) in
      let c' := ListsPage.toast_step (ListsPage.NewFlash fl) c in
      mounted c = true -> ListsPage.show (ListsPage.toast (cells c)) = true ->
      exists t callback,
        (clock c < t <= clock c + 3000)%nat /\
        timer c = Some (t, callback) /\
        timer c' = timer c /\
        cells c' = ListsPage.flashEffect fl (cells c) /\
        forall d, ListsPage.show
                    (ListsPage.toast (cells (elapse ListsPage.autoHide d c'))) =
                  (clock c + d <? t)%nat).
Proof.
  split.
  - intros now p es c c' M V.
    assert (W : well_timed TasksPage.autoHide 3000
                  (TasksPage.setShowToast false) c).
    { apply TasksPageFacts.tasks_after_well_timed, mount_well_timed;
        auto using TasksPageFacts.tasks_autoHide_on,
          TasksPageFacts.tasks_autoHide_off. lia. }
    destruct (update_keeps_deadline TasksPage.autoHide 3000
                (TasksPage.setShowToast false)
                TasksPageFacts.tasks_autoHide_off
                TasksPageFacts.tasks_hide_off
                (TasksPage.flashEffect fl) c W M V
                (tasks_flash_keeps_visible fl _ V))
      as (t & T & B & U & E).
    exists t. subst c'. simpl. rewrite U, T. simpl.
    repeat split; try lia.
    intros d. rewrite <- U. apply E.
  - intros now es c c' M V.
    assert (W : well_timed ListsPage.autoHide 3000
                  (ListsPage.setToast
                     (fun prev => ListsPage.mkToast false
                                    (ListsPage.message prev)
                                    (ListsPage.type prev))) c).
    { apply ListsPageFacts.lists_after_well_timed, mount_well_timed;
        auto using ListsPageFacts.lists_autoHide_on,
          ListsPageFacts.lists_autoHide_off. lia. }
    destruct (update_keeps_deadline ListsPage.autoHide 3000 _
                ListsPageFacts.lists_autoHide_off
                ListsPageFacts.lists_hide_off
                (ListsPage.flashEffect fl) c W M V
                (lists_flash_keeps_visible fl _ V))
      as (t & T & B & U & E).
    exists t. eexists. subst c'. simpl. rewrite U, T. simpl.
    repeat split; try lia.
    intros d. rewrite <- U. apply E.
Qed.

Lemma second_flash_keeps_the_deadline_witness :
  let c := TasksPage.after [TasksPage.NewFlash both_flashes; TasksPage.Elapse 1000]
             (TasksPage.first_render 0 page_two) in
  let second := Some (Http.mkFlash None (Some "Could not delete")) in
  let c' := TasksPage.toast_step (TasksPage.NewFlash second) c in
  TasksPage.renderToast (cells c') = Some (ToastError, "Could not delete") /\
  TasksPage.showToast (cells (elapse TasksPage.autoHide 1999 c')) = true /\
  TasksPage.showToast (cells (elapse TasksPage.autoHide 2000 c')) = false.
Proof.
  intros c second c'.
  destruct (proj1 (second_flash_keeps_the_deadline second) 0%nat page_two
              [TasksPage.NewFlash both_flashes; TasksPage.Elapse 1000]
              eq_refl eq_refl) as (t & B & T & _ & _ & E).
  assert (Ht : t = 3000%nat).
  { vm_compute in T. injection T as T. symmetry. exact T. }
  split; [reflexivity|].
  split.
  - fold c c' in E. rewrite (E 1999%nat), Ht. reflexivity.
  - fold c c' in E. rewrite (E 2000%nat), Ht. reflexivity.
Defined.

End ToastFacts.

Module DialogFacts.
Import Inertia Ui Examples.

(** X14.  Editing and saving, on both pages: the pencil button opens the
    dialog on the entity with its fields in the form (a missing
    description or due date as the empty text); submitting then sends a
    PUT to that entity with those fields; and when it succeeds the
    dialog is closed, nothing is being edited, the form shows its
    defaults again and the helper is no longer processing. *)
Theorem edit_submit_success_round_trip :
  (forall (t : TasksPage.Task) (s : TasksPage.State),
      let fields :=
        TasksPage.mkFormData (TasksPage.title t)
          (match TasksPage.description t with Some d => d | None => "" end)
          (match TasksPage.due_date t with Some d => d | None => "" end)
          (NilZero.string_of_int (Z.to_int (TasksPage.lists_id t)))
          (TasksPage.is_completed t) in
      let editing := TasksPage.handleEdit t s in
      let sent := TasksPage.handleSubmit editing in
      let done := TasksPage.onFinish (TasksPage.onSuccess (snd sent) (fst sent)) in
      TasksPage.renderDialog editing =
        TasksPage.mkDialogView true "Edit Task" fields
          (processing (TasksPage.form s)) "Update" /\
      snd sent = Put "/tasks" (TasksPage.id t) fields /\
      processing (TasksPage.form (fst sent)) = true /\
      TasksPage.isOpen done = false /\
      TasksPage.editingTask done = None /\
      TasksPage.form done =
        mkForm (defaults (TasksPage.form s)) (defaults (TasksPage.form s)) false) /\
  (forall (l : ListsPage.TaskList) (s : ListsPage.State),
      let fields := ListsPage.mkFormData (ListsPage.title l) (ListsPage.description l) in
      let editing := ListsPage.handleEditList l s in
      let sent := ListsPage.handleFormSubmit editing in
      let done := ListsPage.onFinish (ListsPage.onSuccess (snd sent) (fst sent)) in
      ListsPage.dialog_open (ListsPage.renderDialog editing) = true /\
      ListsPage.dialog_title (ListsPage.renderDialog editing) = "Edit Task List" /\
      ListsPage.dialog_fields (ListsPage.renderDialog editing) = fields /\
      snd sent = Put "/lists" (ListsPage.id l) fields /\
      processing (ListsPage.listForm (fst sent)) = true /\
      ListsPage.isDialogOpen done = false /\
      ListsPage.editingList done = None /\
      ListsPage.listForm done =
        mkForm (defaults (ListsPage.listForm s))
               (defaults (ListsPage.listForm s)) false).
Proof.
  split.
  - intros t s. cbv zeta. repeat split.
  - intros l s. cbv zeta. repeat split.
Qed.

Lemma tasks_finish_start (s : TasksPage.State) :
  processing (TasksPage.form s) = false ->
  TasksPage.onFinish (TasksPage.withForm start s) = s.
Proof.
  destruct s as [o e sh m ty q f [d df pr]]. simpl. intros ->. reflexivity.
Qed.

Lemma lists_finish_start (s : ListsPage.State) :
  processing (ListsPage.listForm s) = false ->
  ListsPage.onFinish (ListsPage.withForm start s) = s.
Proof.
  destruct s as [o e sel td to [d df pr]]. simpl. intros ->. reflexivity.
Qed.

(** X15.  A submission that comes back with errors leaves the page in
    exactly the state it had before the submit: the dialog still open on
    the same entity, the fields as typed, the submit control enabled
    again, nothing in flight.  On both pages, in every state reached from
    the first render. *)
Theorem failed_submit_restores_the_dialog :
  (forall p es r r1,
      TasksPage.run es (TasksPage.start_run p) = Some r ->
      TasksPage.step TasksPage.Submit r = Some r1 ->
      TasksPage.submit_disabled (TasksPage.renderDialog (TasksPage.page r1)) = true /\
      TasksPage.step (TasksPage.Failed 0) r1 = Some r) /\
  (forall es r r1,
      ListsPage.run es ListsPage.start_run = Some r ->
      ListsPage.step ListsPage.Submit r = Some r1 ->
      ListsPage.submit_disabled (ListsPage.renderDialog (ListsPage.page r1)) = true /\
      ListsPage.step (ListsPage.Failed 0) r1 = Some r).
Proof.
  split.
  - intros p es r r1 H S.
    assert (I : TasksPage.in_flight_iff_processing r).
    { eapply TasksPageFacts.tasks_run_inv; [|exact H]. reflexivity. }
    unfold TasksPage.in_flight_iff_processing in I.
    destruct r as [s fl]. simpl in *.
    destruct (TasksPage.isOpen s); [|discriminate].
    destruct (processing (TasksPage.form s)) eqn:P; [discriminate|].
    destruct fl; [|discriminate]. simpl in S.
    unfold TasksPage.handleSubmit in S.
    destruct (TasksPage.editingTask s); injection S as <-; simpl;
      (split; [reflexivity|]);
      change (TasksPage.withForm finish (TasksPage.withForm start s))
        with (TasksPage.onFinish (TasksPage.withForm start s));
      rewrite (tasks_finish_start s P); reflexivity.
  - intros es r r1 H S.
    assert (I : ListsPage.in_flight_iff_processing r).
    { eapply ListsPageFacts.lists_run_inv; [|exact H]. reflexivity. }
    unfold ListsPage.in_flight_iff_processing in I.
    destruct r as [s fl]. simpl in *.
    destruct (ListsPage.isDialogOpen s); [|discriminate].
    destruct (processing (ListsPage.listForm s)) eqn:P; [discriminate|].
    destruct fl; [|discriminate]. simpl in S.
    unfold ListsPage.handleFormSubmit in S.
    destruct (ListsPage.editingList s); injection S as <-; simpl;
      (split; [reflexivity|]);
      change (ListsPage.withForm finish (ListsPage.withForm start s))
        with (ListsPage.onFinish (ListsPage.withForm start s));
      rewrite (lists_finish_start s P); reflexivity.
Qed.

Lemma failed_submit_restores_the_dialog_witness :
  exists r r1,
    TasksPage.run [TasksPage.Edit report; TasksPage.Change draft]
      (TasksPage.start_run page_two) = Some r /\
    TasksPage.step TasksPage.Submit r = Some r1 /\
    TasksPage.inflight r1 = [Put "/tasks" 7 draft] /\
    TasksPage.step (TasksPage.Failed 0) r1 = Some r.
Proof.
  eexists. eexists. split; [reflexivity|]. split; [reflexivity|].
  split; [reflexivity|].
  exact (proj2 (proj1 failed_submit_restores_the_dialog page_two
                  [TasksPage.Edit report; TasksPage.Change draft]
                  _ _ eq_refl eq_refl)).
Defined.



End DialogFacts.

Module ListsViewFacts.
Import Inertia Ui ListsPage ListsPageView Examples.

(** *** Card colours *)

Lemma colors_distinct (i j : nat) :
  (i < 10)%nat -> (j < 10)%nat ->
  nth_error colors i = nth_error colors j -> i = j.
Proof.
  intros Hi Hj E.
  do 10 (destruct i as [|i];
         [do 10 (destruct j as [|j];
                 [first [reflexivity | discriminate E]|]);
          exfalso; clear E; lia|]).
  exfalso; clear E; lia.
Qed.

(** X17.  Every card gets one of the ten colour classes (never
    [undefined]), the colours repeat with period ten, and any two cards
    less than ten places apart get different colours. *)
Theorem card_colors_cycle (i : nat) :
  (exists c, getCardColor i = Some c /\ In c colors) /\
  getCardColor (i + 10) = getCardColor i /\
  (forall j, (i < j < i + 10)%nat -> getCardColor i <> getCardColor j).
Proof.
  unfold getCardColor. change (List.length colors) with 10%nat.
  assert (Hi : (i mod 10 < 10)%nat) by (apply Nat.mod_upper_bound; lia).
  split; [|split].
  - destruct (nth_error colors (i mod 10)) as [c|] eqn:E.
    + exists c. split; [reflexivity|]. eapply nth_error_In; eauto.
    + apply nth_error_None in E.
      change (List.length colors) with 10%nat in E. lia.
  - f_equal. rewrite <- (Nat.mul_1_l 10) at 1.
    rewrite Nat.Div0.mod_add. reflexivity.
  - intros j Hj E.
    assert (Hjm : (j mod 10 < 10)%nat) by (apply Nat.mod_upper_bound; lia).
    apply colors_distinct in E; try assumption.
    pose proof (Nat.div_mod_eq i 10). pose proof (Nat.div_mod_eq j 10). lia.
Qed.

Lemma card_colors_cycle_witness :
  getCardColor 3 = Some "bg-red-100 border-red-200 hover:bg-red-200/50" /\
  getCardColor 13 = getCardColor 3 /\
  getCardColor 3 <> getCardColor 12.
Proof.
  destruct (card_colors_cycle 3) as (_ & Hperiod & Hdiff).
  split; [reflexivity|]. split; [exact Hperiod|].
  apply Hdiff. lia.
Defined.

(** *** Truncating a description *)

Lemma append_assoc (a b c : string) : (a ++ b) ++ c = a ++ (b ++ c).
Proof. induction a as [|x a IH]; simpl; [reflexivity|]. rewrite IH. reflexivity. Qed.

Lemma append_nil_r (a : string) : a ++ "" = a.
Proof. induction a as [|x a IH]; simpl; [reflexivity|]. rewrite IH. reflexivity. Qed.

Lemma split_not_nil (s : string) : split s <> [].
Proof.
  induction s as [|c r IH]; simpl; [discriminate|].
  destruct (Ascii.eqb c " "); [discriminate|].
  destruct (split r); discriminate.
Qed.

Lemma join_cons (w : string) (ws : list string) :
  ws <> [] -> join (w :: ws) = w ++ " " ++ join ws.
Proof. destruct ws; [congruence|reflexivity]. Qed.

Lemma join_cons_char (c : ascii) (w : string) (ws : list string) :
  join (String c w :: ws) = String c (join (w :: ws)).
Proof. destruct ws; reflexivity. Qed.

(** [join] undoes [split]. *)
Lemma join_split (s : string) : join (split s) = s.
Proof.
  induction s as [|c r IH]; [reflexivity|]. simpl.
  destruct (Ascii.eqb_spec c " ") as [->|Hc].
  - rewrite join_cons by apply split_not_nil. rewrite IH. reflexivity.
  - pose proof (split_not_nil r) as N.
    destruct (split r) as [|w ws]; [congruence|].
    rewrite join_cons_char, IH. reflexivity.
Qed.

(** The pieces of a split hold no space: splitting one gives itself. *)
Lemma split_pieces (s : string) : Forall (fun w => split w = [w]) (split s).
Proof.
  induction s as [|c r IH]; simpl; [repeat constructor|].
  destruct (Ascii.eqb c " ") eqn:E.
  - constructor; [reflexivity|exact IH].
  - pose proof (split_not_nil r) as N.
    destruct (split r) as [|w ws]; [congruence|].
    inversion IH as [|? ? Hw Hws]; subst.
    constructor; [|exact Hws]. simpl. rewrite E, Hw. reflexivity.
Qed.

Lemma split_piece_then (w s : string) :
  split w = [w] -> split (w ++ String " "%char s) = w :: split s.
Proof.
  induction w as [|c w IH]; simpl; [reflexivity|].
  destruct (Ascii.eqb c " ") eqn:E.
  - intros H. pose proof (split_not_nil w) as N.
    destruct (split w); [congruence|discriminate].
  - pose proof (split_not_nil w) as N.
    destruct (split w) as [|w1 ws1] eqn:S1; [congruence|].
    intros H. injection H as H1 H2. subst.
    rewrite IH by reflexivity. reflexivity.
Qed.

(** [split] undoes [join] on pieces that hold no space. *)
Lemma split_join (ws : list string) :
  ws <> [] -> Forall (fun w => split w = [w]) ws -> split (join ws) = ws.
Proof.
  induction ws as [|w ws IH]; [congruence|]. intros _ F.
  inversion F as [|? ? Hw Hws]; subst.
  destruct ws as [|w2 ws]; [exact Hw|].
  rewrite join_cons by discriminate.
  change (" " ++ join (w2 :: ws)) with (String " "%char (join (w2 :: ws))).
  rewrite split_piece_then by exact Hw.
  rewrite IH; [reflexivity|discriminate|exact Hws].
Qed.

Lemma join_firstn_prefix (n : nat) (ws : list string) :
  exists rest, join ws = join (firstn n ws) ++ rest.
Proof.
  revert ws. induction n as [|n IH]; intros ws.
  - exists (join ws). reflexivity.
  - destruct ws as [|w ws]; [exists ""; reflexivity|].
    destruct ws as [|w2 ws].
    + exists "". rewrite firstn_all2 by (simpl; lia).
      symmetry. apply append_nil_r.
    + destruct (IH (w2 :: ws)) as (rest & E).
      rewrite join_cons by discriminate. rewrite E.
      change (firstn (Datatypes.S n) (w :: w2 :: ws))
        with (w :: firstn n (w2 :: ws)).
      destruct (firstn n (w2 :: ws)) as [|k ks] eqn:F.
      * exists (" " ++ rest). reflexivity.
      * exists rest. rewrite (join_cons w (k :: ks)) by discriminate.
        rewrite !append_assoc. reflexivity.
Qed.

(** X18.  [truncateText] returns the empty text for a missing or empty
    text and the text itself when it has at most [maxWords] words.
    Otherwise it returns a beginning of the text followed by ["..."];
    that beginning consists of exactly the first [maxWords] words (the
    pieces between single spaces) when [maxWords] is positive. *)
Theorem truncateText_keeps_the_first_words (t : string) (maxWords : nat) :
  truncateText None maxWords = "" /\
  truncateText (Some "") maxWords = "" /\
  ((List.length (split t) <= maxWords)%nat -> truncateText (Some t) maxWords = t) /\
  ((maxWords < List.length (split t))%nat -> t <> "" ->
   exists kept rest,
     truncateText (Some t) maxWords = kept ++ "..." /\
     t = kept ++ rest /\
     ((0 < maxWords)%nat ->
      split kept = firstn maxWords (split t) /\
      List.length (split kept) = maxWords)).
Proof.
  split; [reflexivity|]. split; [reflexivity|]. split.
  - intros H. unfold truncateText.
    destruct (String.eqb_spec t ""); [congruence|].
    apply Nat.leb_le in H. rewrite H. reflexivity.
  - intros H Ht. unfold truncateText.
    destruct (String.eqb_spec t ""); [congruence|].
    apply Nat.leb_gt in H. rewrite H. apply Nat.leb_gt in H.
    destruct (join_firstn_prefix maxWords (split t)) as (rest & E).
    rewrite join_split in E.
    exists (join (firstn maxWords (split t))), rest.
    split; [reflexivity|]. split; [exact E|].
    intros Hpos.
    assert (S : split (join (firstn maxWords (split t))) =
                firstn maxWords (split t)).
    { apply split_join.
      - destruct (split t); [simpl in H; lia|].
        destruct maxWords; [lia|discriminate].
      - apply Forall_forall. intros w Hw.
        pose proof (split_pieces t) as F. rewrite Forall_forall in F.
        apply F. rewrite <- (firstn_skipn maxWords (split t)).
        apply in_or_app. left. exact Hw. }
    split; [exact S|]. rewrite S, length_firstn. lia.
Qed.

Lemma truncateText_keeps_the_first_words_witness :
  truncateText (Some "buy milk and two loaves of bread") 3 = "buy milk and..." /\
  truncateText (Some "buy milk") 3 = "buy milk".
Proof.
  destruct (truncateText_keeps_the_first_words "buy milk" 3) as (_ & _ & H & _).
  split; [reflexivity|]. apply H. simpl. lia.
Defined.

(** *** Clicking a list *)

(** X19.  A click on a list card always opens the tasks dialog on that
    list and leaves the create/edit dialog and its form alone.  The
    tasks shown are the ones the list already carries, else the fetched
    ones; when the list carries none and the fetch fails, an error toast
    "Failed to load tasks" is raised and the dialog shows the line for a
    list without tasks. *)
Theorem list_click_opens_the_tasks_dialog
        (l : TaskList) (fetched : option (list Task)) (s : State) :
  let s' := handleListClick l fetched s in
  let shown := match tasks l with Some ts => Some ts | None => fetched end in
  isTasksDialogOpen s' = true /\
  selectedList s' =
    Some (mkTaskList (id l) (title l) (description l) (tasks_count l) shown) /\
  isDialogOpen s' = isDialogOpen s /\ editingList s' = editingList s /\
  listForm s' = listForm s /\
  toast s' =
    match shown with
    | Some _ => toast s
    | None => mkToast true "Failed to load tasks" ToastError
    end /\
  exists view,
    renderTasksDialog s' = Some view /\
    tasks_dialog_open view = true /\
    tasks_dialog_title view = title l /\
    tasks_dialog_body view =
      match shown with
      | Some (t :: ts) => Items (map renderTaskItem (t :: ts))
      | _ => NoTasksYet
      end.
Proof.
  destruct l as [i ti de tc [ts|]]; destruct fetched as [fs|];
    simpl; repeat split; eexists; repeat split.
Qed.

End ListsViewFacts.

Module DashboardPageFacts.
Import DashboardPage DashboardController DashboardFacts DashboardMore.

Section RecentFacts.
Variable getTime : string -> Z.

(** The page's comparator is the server's ordering on the one key
    [stamp]: the page sorts as [orderBy] does. *)
Lemma keeps_first_row_before (a b : TaskList) :
  keeps_first getTime a b =
  row_before (stamp getTime) (fun _ => 0) a b.
Proof.
  unfold keeps_first, row_before, before.
  destruct (Z.leb_spec (stamp getTime b - stamp getTime a) 0);
    destruct (Z.ltb_spec (stamp getTime b) (stamp getTime a));
    destruct (Z.eqb_spec (stamp getTime b) (stamp getTime a));
    simpl; try reflexivity; lia.
Qed.

Lemma sortedLists_orderBy (l : list TaskList) :
  sortedLists getTime l = orderBy (stamp getTime) (fun _ => 0) l.
Proof.
  unfold sortedLists, orderBy. induction l as [|x l IH]; simpl; [reflexivity|].
  rewrite IH. generalize (fold_right (insert_row (stamp getTime) (fun _ => 0)) [] l).
  intros r. induction r as [|y r IHr]; simpl; [reflexivity|].
  rewrite keeps_first_row_before, IHr. reflexivity.
Qed.

Lemma sortedLists_sorted (l : list TaskList) :
  StronglySorted (fun a b => stamp getTime b <= stamp getTime a)
                 (sortedLists getTime l).
Proof.
  rewrite sortedLists_orderBy.
  pose proof (orderBy_strongly_sorted (stamp getTime) (fun _ => 0) l) as H.
  induction H as [|a r Hr IH Ha]; constructor; [exact IH|].
  eapply Forall_impl; [|exact Ha]. intros b Hb.
  apply ordered_before_spec in Hb. simpl in Hb. lia.
Qed.

Lemma sortedLists_fixes_sorted (l : list TaskList) :
  StronglySorted (fun a b => stamp getTime b <= stamp getTime a) l ->
  sortedLists getTime l = l.
Proof.
  induction 1 as [|a r Hr IH Ha]; [reflexivity|].
  unfold sortedLists in *. simpl. rewrite IH.
  destruct r as [|b r]; [reflexivity|]. simpl.
  inversion Ha as [|? ? Hb _]; subst.
  unfold keeps_first. destruct (Z.leb_spec (stamp getTime b - stamp getTime a) 0);
    [reflexivity|lia].
Qed.

Lemma strongly_sorted_split {A : Type} (R : A -> A -> Prop) (l1 l2 : list A) :
  StronglySorted R (l1 ++ l2) ->
  forall a b, In a l1 -> In b l2 -> R a b.
Proof.
  induction l1 as [|x l1 IH]; simpl; intros H a b Ha Hb; [tauto|].
  apply StronglySorted_inv in H as [H F].
  destruct Ha as [->|Ha]; [|eauto].
  rewrite Forall_forall in F. apply F, in_or_app. auto.
Qed.

(** X20.  The dashboard page's "Recent Lists": the sorted lists are the
    lists it was given, most recent first by update time (creation time
    when the update time is empty); lists that arrive already in that
    order keep their order, ties included; the card shows the first
    five, or all when there are fewer, none of them older than a list
    it leaves out; and the "No lists yet" line appears exactly when no
    list was given. *)
Theorem recent_lists_are_the_latest_five (lists : list TaskList) :
  let sorted := sortedLists getTime lists in
  Permutation lists sorted /\
  StronglySorted (fun a b => stamp getTime b <= stamp getTime a) sorted /\
  (StronglySorted (fun a b => stamp getTime b <= stamp getTime a) lists ->
   sorted = lists) /\
  match recentLists getTime lists with
  | None => lists = []
  | Some shown =>
      lists <> [] /\
      shown = firstn 5 sorted /\
      List.length shown = Nat.min 5 (List.length lists) /\
      (forall a b, In a shown -> In b lists -> ~ In b shown ->
                   stamp getTime b <= stamp getTime a)
  end.
Proof.
  intros sorted.
  assert (P : Permutation lists sorted).
  { subst sorted. rewrite sortedLists_orderBy. apply orderBy_perm. }
  assert (S : StronglySorted (fun a b => stamp getTime b <= stamp getTime a) sorted)
    by apply sortedLists_sorted.
  split; [exact P|]. split; [exact S|].
  split; [apply sortedLists_fixes_sorted|].
  unfold recentLists. fold sorted.
  destruct sorted as [|x r] eqn:E.
  - apply Permutation_sym, Permutation_nil in P. exact P.
  - rewrite <- E in *. split.
    + intros N. rewrite N in P. apply Permutation_nil in P. congruence.
    + split; [reflexivity|]. split.
      * rewrite length_firstn, (Permutation_length P). reflexivity.
      * intros a b Ha Hb Hn.
        assert (Hb' : In b (skipn 5 sorted)).
        { apply (Permutation_in _ P) in Hb.
          rewrite <- (firstn_skipn 5 sorted) in Hb.
          apply in_app_or in Hb as [Hb|Hb]; [contradiction|exact Hb]. }
        rewrite <- (firstn_skipn 5 sorted) in S.
        exact (strongly_sorted_split _ _ _ S a b Ha Hb').
Qed.

End RecentFacts.

Lemma recent_lists_are_the_latest_five_witness :
  StronglySorted
    (fun a b => stamp Scenarios.seconds b <= stamp Scenarios.seconds a)
    [Scenarios.errands; Scenarios.garden; Scenarios.reading] /\
  sortedLists Scenarios.seconds
    [Scenarios.errands; Scenarios.garden; Scenarios.reading] =
  [Scenarios.errands; Scenarios.garden; Scenarios.reading] /\
  sortedLists Scenarios.seconds
    [Scenarios.reading; Scenarios.errands; Scenarios.garden] =
  [Scenarios.errands; Scenarios.reading; Scenarios.garden].
Proof.
  assert (H : StronglySorted
                (fun a b => stamp Scenarios.seconds b <= stamp Scenarios.seconds a)
                [Scenarios.errands; Scenarios.garden; Scenarios.reading]).
  { repeat constructor; vm_compute; discriminate. }
  split; [exact H|]. split; [|reflexivity].
  exact (proj1 (proj2 (proj2
           (recent_lists_are_the_latest_five Scenarios.seconds
              [Scenarios.errands; Scenarios.garden; Scenarios.reading]))) H).
Defined.

End DashboardPageFacts.
